(** * Acquisitions API: access control, rate gate and user store

    A shallow embedding of
      - [src/middleware/security.middleware.js] (the rate/abuse gate, in its
        two variants, and the users controller that is kept next to it),
      - [src/services/users.services.js] (the user store),
    followed by the properties the specification states about them.

    JavaScript values that reach a response body are modelled by [Json];
    strings are [string]; identifiers and timestamps are [Z].  Handlers run
    in a state-and-exception monad [M] over a [World] that holds the user
    table, the logger's output, the calls made to the decision service, the
    clock and the process environment. *)

From Stdlib Require Import ZArith List String Ascii Bool Lia DecimalString.
Import ListNotations.
Local Open Scope string_scope.
Local Open Scope Z_scope.

(* ===================================================================== *)
(** ** JavaScript values                                                  *)
(* ===================================================================== *)

#[warnings="-register-all"]
Inductive Json : Type :=
| JUndefined
| JNull
| JBool (b : bool)
| JNum (n : Z)
| JStr (s : string)
| JArr (xs : list Json)
| JObj (fields : list (string * Json)).


(** Truthiness of a string: only the empty string is falsy. *)
Definition truthy (s : string) : bool :=
  match s with
  | EmptyString => false
  | String _ _ => true
  end.

(** [o && ...] on an optional string property: absent or empty is falsy. *)
Definition truthy_opt (o : option string) : bool :=
  match o with
  | Some s => truthy s
  | None => false
  end.

(** [o || d] on an optional string. *)
Definition or_default (o : option string) (d : string) : string :=
  match o with
  | Some s => if truthy s then s else d
  | None => d
  end.

Definition opt_json (o : option string) : Json :=
  match o with
  | Some s => JStr s
  | None => JUndefined
  end.

(** [String.prototype.toLowerCase], on the ASCII range. *)
Definition lower_ascii (c : ascii) : ascii :=
  let n := nat_of_ascii c in
  if (Nat.leb 65 n && Nat.leb n 90)%bool then ascii_of_nat (n + 32) else c.

Fixpoint toLowerCase (s : string) : string :=
  match s with
  | EmptyString => EmptyString
  | String c s' => String (lower_ascii c) (toLowerCase s')
  end.

(** [s.includes(sub)] *)
Fixpoint includes (s sub : string) : bool :=
  String.prefix sub s ||
  match s with
  | EmptyString => false
  | String _ s' => includes s' sub
  end.

(** Template-literal rendering of an integer. *)
Definition string_of_Z (z : Z) : string := NilZero.string_of_int (Z.to_int z).

(* ===================================================================== *)
(** ** The world and the handler monad                                    *)
(* ===================================================================== *)

(** A row of the [users] table. *)
Record UserRow : Type := mkUser {
  u_id : Z;
  u_name : string;
  u_email : string;
  u_password : string;
  u_role : string;
  u_createdAt : Z;
  u_updatedAt : Z
}.

Inductive Level : Type := info | warn | error | console_log.

Record LogEntry : Type := mkLog {
  log_level : Level;
  log_message : string;
  log_meta : Json
}.

(** The sliding-window rule handed to the decision service. *)
Record SlidingWindow : Type := slidingWindow {
  sw_mode : string;
  sw_interval : string;
  sw_max : Z;
  sw_name : string
}.

(** The table is a list of rows in storage order; what the schema of
    [#models/user.model.js] may add as constraints is not part of it. *)
Record World : Type := mkWorld {
  NODE_ENV : option string;      (* process.env.NODE_ENV *)
  clock : Z;                     (* what [new Date()] reads *)
  table : list UserRow;          (* the users table *)
  logs : list LogEntry;          (* logger output, oldest first *)
  protect_calls : list SlidingWindow  (* calls to the decision service *)
}.

Definition set_table (t : list UserRow) (w : World) : World :=
  mkWorld (NODE_ENV w) (clock w) t (logs w) (protect_calls w).

Definition add_log (e : LogEntry) (w : World) : World :=
  mkWorld (NODE_ENV w) (clock w) (table w) (logs w ++ [e]) (protect_calls w).

Definition add_call (r : SlidingWindow) (w : World) : World :=
  mkWorld (NODE_ENV w) (clock w) (table w) (logs w) (protect_calls w ++ [r]).

(** A thrown [Error]: its message and its stack. *)
Record Error : Type := mkError {
  e_message : string;
  e_stack : string
}.

Definition new_Error (msg : string) : Error := mkError msg EmptyString.

(** State over [World] with exceptions; a throw keeps the state reached. *)
Definition M (A : Type) : Type := World -> (Error + A) * World.

Definition ret {A} (a : A) : M A := fun w => (inr a, w).

Definition bind {A B} (m : M A) (k : A -> M B) : M B :=
  fun w =>
    match m w with
    | (inr a, w') => k a w'
    | (inl e, w') => (inl e, w')
    end.

Definition throw {A} (e : Error) : M A := fun w => (inl e, w).

Definition try_catch {A} (m : M A) (h : Error -> M A) : M A :=
  fun w =>
    match m w with
    | (inr a, w') => (inr a, w')
    | (inl e, w') => h e w'
    end.

Definition gets {A} (f : World -> A) : M A := fun w => (inr (f w), w).

Definition modify (f : World -> World) : M unit := fun w => (inr tt, f w).

(** An awaited call that either rejects or resolves. *)
Definition lift_result {A} (r : Error + A) : M A :=
  match r with
  | inl e => throw e
  | inr a => ret a
  end.

Declare Scope js_scope.
Delimit Scope js_scope with js.
Notation "x <- m ;; k" := (bind m (fun x => k))
  (at level 61, m at next level, right associativity) : js_scope.
Notation "m ;; k" := (bind m (fun _ => k))
  (at level 61, right associativity) : js_scope.
Local Open Scope js_scope.

Definition logger (l : Level) (msg : string) (meta : Json) : M unit :=
  modify (add_log (mkLog l msg meta)).

Definition error_json (e : Error) : Json := JStr (e_message e).

(** What a handler does with the request in the end. *)
Inductive Outcome : Type :=
| Respond (status : Z) (body : Json)   (* res.status(s).json(body) *)
| Next (err : option Error).           (* next() or next(e) *)

(* ===================================================================== *)
(** ** The users table and the query builder                              *)
(* ===================================================================== *)

Inductive Column : Type :=
| users_id | users_name | users_email | users_password
| users_role | users_createdAt | users_updatedAt.

Definition column_value (c : Column) (r : UserRow) : Json :=
  match c with
  | users_id => JNum (u_id r)
  | users_name => JStr (u_name r)
  | users_email => JStr (u_email r)
  | users_password => JStr (u_password r)
  | users_role => JStr (u_role r)
  | users_createdAt => JNum (u_createdAt r)
  | users_updatedAt => JNum (u_updatedAt r)
  end.

(** The object a [select({...})] or [returning({...})] builds per row. *)
Definition project (sel : list (string * Column)) (r : UserRow) : Json :=
  JObj (map (fun kc => (fst kc, column_value (snd kc) r)) sel).

(** [eq(users.id, id)] and [eq(users.email, email)] *)
Definition eq_id (i : Z) (r : UserRow) : bool := u_id r =? i.
Definition eq_email (e : string) (r : UserRow) : bool := String.eqb (u_email r) e.

(** The query builder below answers every statement from the table: a
    statement that the database rejects (a lost connection, say) is outside
    this model, so the [catch] blocks of the services and handlers see the
    errors the services throw themselves and those of [hashPassword]. *)

(** [db.select().from(users).where(p).limit(n)] *)
Definition db_select_where (p : UserRow -> bool) (n : nat) : M (list UserRow) :=
  gets (fun w => firstn n (filter p (table w))).

(** [db.select(sel).from(users)] *)
Definition db_select_all (sel : list (string * Column)) : M (list Json) :=
  gets (fun w => map (project sel) (table w)).

(** [db.select(sel).from(users).where(p).limit(n)] *)
Definition db_select_as_where (sel : list (string * Column))
    (p : UserRow -> bool) (n : nat) : M (list Json) :=
  gets (fun w => map (project sel) (firstn n (filter p (table w)))).

(** The object passed to [.set(...)]: absent properties leave the column. *)
Record UpdateData : Type := mkUpdateData {
  d_name : option string;
  d_email : option string;
  d_password : option string;
  d_role : option string;
  d_updatedAt : option Z
}.

Definition pick {A} (o : option A) (old : A) : A :=
  match o with
  | Some v => v
  | None => old
  end.

Definition apply_set (d : UpdateData) (r : UserRow) : UserRow :=
  mkUser (u_id r)
         (pick (d_name d) (u_name r))
         (pick (d_email d) (u_email r))
         (pick (d_password d) (u_password r))
         (pick (d_role d) (u_role r))
         (u_createdAt r)
         (pick (d_updatedAt d) (u_updatedAt r)).

(** [db.update(users).set(d).where(p).returning(sel)] *)
Definition db_update_where (d : UpdateData) (p : UserRow -> bool)
    (sel : list (string * Column)) : M (list Json) :=
  fun w =>
    let t' := map (fun r => if p r then apply_set d r else r) (table w) in
    (inr (map (project sel) (map (apply_set d) (filter p (table w)))),
     set_table t' w).

(** [db.delete(users).where(p)] *)
Definition db_delete_where (p : UserRow -> bool) : M unit :=
  modify (fun w => set_table (filter (fun r => negb (p r)) (table w)) w).

(** The validated body of an update request. *)
Record Updates : Type := mkUpdates {
  upd_name : option string;
  upd_email : option string;
  upd_password : option string;
  upd_role : option string
}.

(** The field map that [getAllUsers], [getUserById] and the [returning] of
    [updateUser] each write out: the same six columns at the three places. *)
Definition public_columns : list (string * Column) :=
  [ ("id", users_id); ("name", users_name); ("email", users_email);
    ("role", users_role); ("createdAt", users_createdAt);
    ("updatedAt", users_updatedAt) ].

(** First element of a destructured array, [undefined] when empty. *)
Definition first_json (l : list Json) : Json :=
  match l with
  | x :: _ => x
  | [] => JUndefined
  end.

(* ===================================================================== *)
(** ** src/services/users.services.js                                     *)
(* ===================================================================== *)

Module Services.
Section WithHasher.

(** [hashPassword] of [#services/auth.service.js]: resolves to the hash or
    rejects. *)
Variable hashPassword : string -> Error + string.


Definition getUserById (id : Z) : M Json :=
  try_catch
    (rows <- db_select_as_where public_columns (eq_id id) 1 ;;
     match rows with
     | [] => throw (new_Error "User not found")
     | user :: _ => ret user
     end)
    (fun e => logger error "Error fetching user by id:" (error_json e) ;; throw e).

Definition updateUser (id : Z) (updates : Updates) : M Json :=
  try_catch
    (rows <- db_select_where (eq_id id) 1 ;;
     match rows with
     | [] => throw (new_Error "User not found")
     | existingUser :: _ =>
         let updateData :=
           mkUpdateData (upd_name updates) (upd_email updates)
                        (upd_password updates) (upd_role updates) None in
         updateData <-
           (match upd_password updates with
            | Some pw =>
                if truthy pw then
                  h <- lift_result (hashPassword pw) ;;
                  ret (mkUpdateData (d_name updateData) (d_email updateData)
                                    (Some h) (d_role updateData)
                                    (d_updatedAt updateData))
                else ret updateData
            | None => ret updateData
            end) ;;
         (match upd_email updates with
          | Some em =>
              if truthy em && negb (String.eqb em (u_email existingUser)) then
                found <- db_select_where (eq_email em) 1 ;;
                match found with
                | [] => ret tt
                | _ :: _ => throw (new_Error "Email already in use")
                end
              else ret tt
          | None => ret tt
          end) ;;
         now <- gets clock ;;
         let updateData :=
           mkUpdateData (d_name updateData) (d_email updateData)
                        (d_password updateData) (d_role updateData)
                        (Some now) in
         returned <- db_update_where updateData (eq_id id) public_columns ;;
         logger info ("User " ++ string_of_Z id ++ " updated successfully")
                JUndefined ;;
         ret (first_json returned)
     end)
    (fun e => logger error "Error updating user:" (error_json e) ;; throw e).

Definition deleteUser (id : Z) : M Json :=
  try_catch
    (rows <- db_select_where (eq_id id) 1 ;;
     match rows with
     | [] => throw (new_Error "User not found")
     | _ :: _ =>
         db_delete_where (eq_id id) ;;
         logger info ("User " ++ string_of_Z id ++ " deleted successfully")
                JUndefined ;;
         ret (JObj [("id", JNum id); ("message", JStr "User deleted successfully")])
     end)
    (fun e => logger error "Error deleting user:" (error_json e) ;; throw e).

End WithHasher.
End Services.

(* ===================================================================== *)
(** ** Requests                                                           *)
(* ===================================================================== *)

(** [req.user], the payload the token verifier decoded. *)
Record Identity : Type := mkIdentity {
  user_id : Z;
  user_email : string;
  user_role : string
}.

Record Request : Type := mkRequest {
  req_user_agent : option string;   (* req.get('User-Agent') *)
  req_user : option Identity;
  req_params : Json;
  req_body : Json;
  req_ip : string;
  req_path : string;
  req_method : string
}.

(* ===================================================================== *)
(** ** The users controller (kept in security.middleware.js, l. 215-389)  *)
(* ===================================================================== *)

Module Controller.
Section WithCollaborators.

(** The schemas of [#validation/users.validation.js] and the formatter of
    [#utils/format.js]: [safeParse] yields the error or the parsed data. *)
Variable ZodError : Type.
Variable userIdSchema : Json -> ZodError + Z.
Variable updateUserSchema : Json -> ZodError + Updates.
Variable formatValidationError : ZodError -> Json.
Variable hashPassword : string -> Error + string.

Definition validation_failed (err : ZodError) : Outcome :=
  Respond 400 (JObj [("error", JStr "Validation failed");
                     ("details", formatValidationError err)]).


Definition getUserById (req : Request) : M Outcome :=
  try_catch
    (match userIdSchema (req_params req) with
     | inl err => ret (validation_failed err)
     | inr id =>
         logger info ("Fetching user with id: " ++ string_of_Z id) JUndefined ;;
         user <- Services.getUserById id ;;
         ret (Respond 200 (JObj [("message", JStr "User fetched successfully");
                                 ("user", user)]))
     end)
    (fun e =>
       logger error "Error fetching user:" (error_json e) ;;
       if String.eqb (e_message e) "User not found" then
         ret (Respond 404 (JObj [("error", JStr "User not found")]))
       else ret (Next (Some e))).

Definition updateUser (req : Request) : M Outcome :=
  try_catch
    (match userIdSchema (req_params req) with
     | inl err => ret (validation_failed err)
     | inr id =>
     match updateUserSchema (req_body req) with
     | inl err => ret (validation_failed err)
     | inr updates =>
     match req_user req with
     | None =>
         ret (Respond 401
                (JObj [("error", JStr "Authentication required");
                       ("message",
                        JStr "You must be logged in to update user information")]))
     | Some user =>
         let isOwnProfile := user_id user =? id in
         let isAdmin := String.eqb (user_role user) "admin" in
         if negb isOwnProfile && negb isAdmin then
           ret (Respond 403
                  (JObj [("error", JStr "Forbidden");
                         ("message", JStr "You can only update your own profile")]))
         else if truthy_opt (upd_role updates) && negb isAdmin then
           ret (Respond 403
                  (JObj [("error", JStr "Forbidden");
                         ("message", JStr "Only admins can change user roles")]))
         else
           logger info ("Updating user " ++ string_of_Z id) JUndefined ;;
           updatedUser <- Services.updateUser hashPassword id updates ;;
           ret (Respond 200 (JObj [("message", JStr "User updated successfully");
                                   ("user", updatedUser)]))
     end end end)
    (fun e =>
       logger error "Error updating user:" (error_json e) ;;
       if String.eqb (e_message e) "User not found" then
         ret (Respond 404 (JObj [("error", JStr "User not found")]))
       else if String.eqb (e_message e) "Email already in use" then
         ret (Respond 409 (JObj [("error", JStr "Email already in use")]))
       else ret (Next (Some e))).

Definition deleteUser (req : Request) : M Outcome :=
  try_catch
    (match userIdSchema (req_params req) with
     | inl err => ret (validation_failed err)
     | inr id =>
     match req_user req with
     | None =>
         ret (Respond 401
                (JObj [("error", JStr "Authentication required");
                       ("message", JStr "You must be logged in to delete users")]))
     | Some user =>
         let isOwnProfile := user_id user =? id in
         let isAdmin := String.eqb (user_role user) "admin" in
         if negb isOwnProfile && negb isAdmin then
           ret (Respond 403
                  (JObj [("error", JStr "Forbidden");
                         ("message",
                          JStr "You can only delete your own profile or be an admin")]))
         else
           logger info ("Deleting user " ++ string_of_Z id) JUndefined ;;
           result <- Services.deleteUser id ;;
           ret (Respond 200 (JObj [("message", JStr "User deleted successfully");
                                   ("result", result)]))
     end end)
    (fun e =>
       logger error "Error deleting user:" (error_json e) ;;
       if String.eqb (e_message e) "User not found" then
         ret (Respond 404 (JObj [("error", JStr "User not found")]))
       else ret (Next (Some e))).

End WithCollaborators.
End Controller.

(* ===================================================================== *)
(** ** The rate/abuse gate: src/middleware/security.middleware.js         *)
(* ===================================================================== *)

(** [decision.reason], as the middleware reads it: the truthiness of its
    [isBot], [isShield] and [isRateLimit] properties.  The record leaves the
    three reads free, which is how the text of the middleware branches; what
    the reads are on a decision of [@arcjet/node] is given by
    [read_uncalled] below. *)
Record Reason : Type := mkReason {
  isBot : bool;
  isShield : bool;
  isRateLimit : bool
}.

Record Decision : Type := mkDecision {
  isDenied : bool;
  reason : Reason
}.

(** The kinds of reason a decision of [@arcjet/node] carries.  The library is
    not under src; in it [isRateLimit], [isBot], [isShield] and the like are
    methods of the reason, each telling one kind from the others when it is
    called. *)
Inductive ReasonKind : Type :=
| RateLimitReason | BotReason | ShieldReason | EmailReason
| SensitiveInfoReason | FilterReason | ErrorReason.

(** The middleware calls [decision.isDenied()] but reads
    [decision.reason.isBot], [.isShield] and [.isRateLimit] without calling
    them (l. 73, 86, 99 and l. 166, 178, 191): each read yields the method
    itself, and a function is truthy, whatever the kind of the reason. *)
Definition read_uncalled (k : ReasonKind) : Reason := mkReason true true true.

(** A decision as the library hands it to the middleware. *)
Definition arcjet_decision (denied : bool) (k : ReasonKind) : Decision :=
  mkDecision denied (read_uncalled k).

(** The [switch (role)] both variants open with: the ceiling and the message. *)
Definition limit_and_message (role : string) : Z * string :=
  if String.eqb role "admin" then
    (20, "Admin request limit exceeded (20 per minute). Slow down!")
  else if String.eqb role "user" then
    (10, "User request limit exceeded (10 per minute). Slow down!")
  else if String.eqb role "guest" then
    (5, "Guest request limit exceeded (5 per minute). Slow down!")
  else
    (5, "Request limit exceeded. Slow down!").

(** [req.user?.role || 'guest'] *)
Definition role_of (req : Request) : string :=
  or_default (option_map user_role (req_user req)) "guest".

Definition whitelistedUserAgents : list string :=
  [ "PostmanRuntime"; "insomnia"; "Thunder Client"; "HTTPie"; "curl";
    "axios"; "node-fetch" ].

Definition isWhitelisted (userAgent : string) : bool :=
  existsb (fun agent => includes (toLowerCase userAgent) (toLowerCase agent))
          whitelistedUserAgents.

(** [aj.withRule(rule).protect(req)] against the external decision service
    [protect], which resolves to a decision or rejects; the call is recorded. *)
Definition client_protect (protect : SlidingWindow -> Request -> Error + Decision)
    (rule : SlidingWindow) (req : Request) : M Decision :=
  modify (add_call rule) ;; lift_result (protect rule req).

Definition forbidden (message : string) : Outcome :=
  Respond 403 (JObj [("error", JStr "Forbidden"); ("message", JStr message)]).

Definition too_many_requests (message : string) : Outcome :=
  Respond 429 (JObj [("error", JStr "Too Many Requests");
                     ("message", JStr message)]).

(** The variant gated on the deployment mode (l. 5-124). *)
Module Gate.
Section WithDecisionService.

Variable protect : SlidingWindow -> Request -> Error + Decision.

Definition securityMiddleware (req : Request) : M Outcome :=
  env <- gets NODE_ENV ;;
  let nodeEnv := or_default env "development" in
  if negb (String.eqb nodeEnv "production") then
    logger info ("Bypassing security middleware (NODE_ENV: " ++ nodeEnv ++ ")")
           JUndefined ;;
    ret (Next None)
  else
    try_catch
      (let userAgent := or_default (req_user_agent req) EmptyString in
       if isWhitelisted userAgent then
         logger info "Whitelisted user agent detected, bypassing checks"
                (JObj [("userAgent", JStr userAgent)]) ;;
         ret (Next None)
       else
         let role := role_of req in
         let (limit, message) := limit_and_message role in
         decision <- client_protect protect
                       (slidingWindow "LIVE" "1m" limit (role ++ "-rate-limit"))
                       req ;;
         if isDenied decision then
           if isBot (reason decision) then
             logger warn "Bot request blocked"
                    (JObj [("ip", JStr (req_ip req));
                           ("userAgent", opt_json (req_user_agent req));
                           ("path", JStr (req_path req));
                           ("method", JStr (req_method req))]) ;;
             ret (forbidden "Automated requests are not allowed")
           else if isShield (reason decision) then
             logger warn "Shield blocked request"
                    (JObj [("ip", JStr (req_ip req));
                           ("userAgent", opt_json (req_user_agent req));
                           ("path", JStr (req_path req));
                           ("method", JStr (req_method req))]) ;;
             ret (forbidden "Request blocked by security policy")
           else if isRateLimit (reason decision) then
             logger warn "Rate limit exceeded"
                    (JObj [("ip", JStr (req_ip req));
                           ("userAgent", opt_json (req_user_agent req));
                           ("path", JStr (req_path req));
                           ("role", JStr role)]) ;;
             ret (too_many_requests message)
           else
             ret (Next None)
         else
           ret (Next None))
      (fun e =>
         logger error "Arcjet middleware error:"
                (JObj [("error", JStr (e_message e));
                       ("stack", JStr (e_stack e));
                       ("path", JStr (req_path req))]) ;;
         (* Always continue on error to avoid breaking the app *)
         ret (Next None)).

End WithDecisionService.
End Gate.

(** The variant without the deployment-mode gate (l. 131-213). *)
Module UngatedGate.
Section WithDecisionService.

Variable protect : SlidingWindow -> Request -> Error + Decision.

Definition securityMiddleware (req : Request) : M Outcome :=
  try_catch
    (let role := role_of req in
     let (limit, message) := limit_and_message role in
     decision <- client_protect protect
                   (slidingWindow "LIVE" "1m" limit (role ++ "-rate-limit"))
                   req ;;
     if isDenied decision then
       if isBot (reason decision) then
         logger warn "Bot request blocked"
                (JObj [("ip", JStr (req_ip req));
                       ("userAgent", opt_json (req_user_agent req));
                       ("path", JStr (req_path req))]) ;;
         ret (forbidden "Automated requests are not allowed")
       else if isShield (reason decision) then
         logger warn "Shield Blocked Request"
                (JObj [("ip", JStr (req_ip req));
                       ("userAgent", opt_json (req_user_agent req));
                       ("path", JStr (req_path req));
                       ("method", JStr (req_method req))]) ;;
         ret (forbidden "Request blocked by security policy")
       else if isRateLimit (reason decision) then
         logger warn "Rate limit exceeded"
                (JObj [("ip", JStr (req_ip req));
                       ("userAgent", opt_json (req_user_agent req));
                       ("path", JStr (req_path req))]) ;;
         ret (too_many_requests "Too many requests")
       else
         ret (Next None)
     else
       ret (Next None))
    (fun e =>
       logger console_log "Arcjet Middleware Error:" (error_json e) ;;
       ret (Respond 500
              (JObj [("error", JStr "Internal Server Error");
                     ("message",
                      JStr "Something went wrong with security middleware")]))).

End WithDecisionService.
End UngatedGate.

(* ===================================================================== *)
(** ** src/middleware/auth.middleware.js                                  *)
(* ===================================================================== *)

(** [req.cookies], which [Request] does not carry. *)
Record Cookies : Type := mkCookies {
  cookies_token : option string
}.

(** [req.user = decoded] *)
Definition set_user (decoded : Identity) (req : Request) : Request :=
  mkRequest (req_user_agent req) (Some decoded) (req_params req) (req_body req)
            (req_ip req) (req_path req) (req_method req).

Module Auth.
Section WithVerifier.

(** [jwttoken.verify] of [#utils/jwt.js]: the decoded payload, or a throw. *)
Variable jwttoken_verify : string -> Error + Identity.

(** The handler answers, or passes on the request it has written to. *)
Definition authenticate (cookies : Cookies) (req : Request)
    : M (Outcome * Request) :=
  try_catch
    (match cookies_token cookies with
     | Some token =>
         if negb (truthy token) then
           ret (Respond 401 (JObj [("error", JStr "Authentication required");
                                   ("message", JStr "No token provided")]),
                req)
         else
           decoded <- lift_result (jwttoken_verify token) ;;
           ret (Next None, set_user decoded req)
     | None =>
         ret (Respond 401 (JObj [("error", JStr "Authentication required");
                                 ("message", JStr "No token provided")]),
              req)
     end)
    (fun e =>
       logger error "Authentication error:" (error_json e) ;;
       ret (Respond 401 (JObj [("error", JStr "Authentication failed");
                               ("message", JStr "Invalid or expired token")]),
            req)).

End WithVerifier.

Definition requireAdmin (req : Request) : M Outcome :=
  match req_user req with
  | None =>
      ret (Respond 401 (JObj [("error", JStr "Authentication required");
                              ("message", JStr "No user information found")]))
  | Some user =>
      if negb (String.eqb (user_role user) "admin") then
        ret (Respond 403 (JObj [("error", JStr "Forbidden");
                                ("message", JStr "Admin access required")]))
      else ret (Next None)
  end.

End Auth.

(* ===================================================================== *)
(** ** Reading results                                                    *)
(* ===================================================================== *)

(** The HTTP status a handler run answered with, if it answered. *)
Definition status_of (r : (Error + Outcome) * World) : option Z :=
  match fst r with
  | inr (Respond s _) => Some s
  | _ => None
  end.

(** The password, when one is supplied, hashes. *)
Definition hash_ok (hashPassword : string -> Error + string) (u : Updates) : Prop :=
  forall pw, upd_password u = Some pw -> truthy pw = true ->
             exists h, hashPassword pw = inr h.

(** No row holds the new email, when one that differs is supplied. *)
Definition email_free (u : Updates) (existing : UserRow) (t : list UserRow) : Prop :=
  forall em, upd_email u = Some em -> truthy em = true ->
             em <> u_email existing -> filter (eq_email em) t = [].

(** The target id names no row of the table. *)
Definition absent (id : Z) (t : list UserRow) : Prop :=
  forall r, In r t -> u_id r <> id.

(** The rule a request is checked against: ceiling and name follow the role. *)
Definition rule_for (req : Request) : SlidingWindow :=
  slidingWindow "LIVE" "1m" (fst (limit_and_message (role_of req)))
                (role_of req ++ "-rate-limit").

(** [req.get('User-Agent') || ''] is on the allow-list. *)
Definition whitelisted (req : Request) : bool :=
  isWhitelisted (or_default (req_user_agent req) EmptyString).

(** What the [catch] of the update handler answers to a thrown error. *)
Definition update_catch (e : Error) : Outcome :=
  if String.eqb (e_message e) "User not found" then
    Respond 404 (JObj [("error", JStr "User not found")])
  else if String.eqb (e_message e) "Email already in use" then
    Respond 409 (JObj [("error", JStr "Email already in use")])
  else Next (Some e).

Definition delete_catch (e : Error) : Outcome :=
  if String.eqb (e_message e) "User not found" then
    Respond 404 (JObj [("error", JStr "User not found")])
  else Next (Some e).

(** Entries and answers of the gate. *)
Definition arcjet_error_log (req : Request) (e : Error) : LogEntry :=
  mkLog error "Arcjet middleware error:"
        (JObj [("error", JStr (e_message e)); ("stack", JStr (e_stack e));
               ("path", JStr (req_path req))]).


Definition internal_server_error : Outcome :=
  Respond 500 (JObj [("error", JStr "Internal Server Error");
                     ("message",
                      JStr "Something went wrong with security middleware")]).

(** *** Fixtures for concrete runs *)

Fixpoint json_get (k : string) (fields : list (string * Json)) : Json :=
  match fields with
  | [] => JUndefined
  | (k', v) :: rest => if String.eqb k' k then v else json_get k rest
  end.

Definition json_field (k : string) (j : Json) : Json :=
  match j with
  | JObj fields => json_get k fields
  | _ => JUndefined
  end.

Definition string_field (k : string) (j : Json) : option string :=
  match json_field k j with
  | JStr s => Some s
  | _ => None
  end.

(** A schema that accepts [{id: n}] with a positive [n]. *)
Definition fixture_userIdSchema (params : Json) : unit + Z :=
  match json_field "id" params with
  | JNum n => if 0 <? n then inr n else inl tt
  | _ => inl tt
  end.

(** A schema that keeps the string properties it knows. *)
Definition fixture_updateUserSchema (body : Json) : unit + Updates :=
  match body with
  | JObj _ =>
      inr (mkUpdates (string_field "name" body) (string_field "email" body)
                     (string_field "password" body) (string_field "role" body))
  | _ => inl tt
  end.

Definition fixture_formatValidationError (_ : unit) : Json :=
  JStr "Validation failed".

Definition fixture_hashPassword (pw : string) : Error + string :=
  inr ("hashed:" ++ pw).

Definition alice : UserRow :=
  mkUser 1 "Alice" "alice@example.com" "hashed:alice-secret" "user" 100 100.
Definition bob : UserRow :=
  mkUser 2 "Bob" "bob@example.com" "hashed:bob-secret" "user" 110 110.
Definition root : UserRow :=
  mkUser 3 "Root" "root@example.com" "hashed:root-secret" "admin" 120 120.

Definition fixture_world (env : option string) : World :=
  mkWorld env 1000 [alice; bob; root] [] [].

Definition as_user (r : UserRow) : Identity :=
  mkIdentity (u_id r) (u_email r) (u_role r).

(** A request by [actor] on [/users/:id] with the given body. *)
Definition fixture_request (actor : option Identity) (id : Z) (body : Json)
    (method : string) : Request :=
  mkRequest (Some "Mozilla/5.0") actor (JObj [("id", JNum id)]) body
            "203.0.113.7" ("/api/users/" ++ string_of_Z id) method.

(** Decision services that always throw, or always deny for one reason. *)
Definition protect_throws (_ : SlidingWindow) (_ : Request) : Error + Decision :=
  inl (mkError "decision service unavailable" "at protect").

Definition protect_denies (why : Reason) (_ : SlidingWindow) (_ : Request)
    : Error + Decision :=
  inr (mkDecision true why).

(** The decision service of the library, denying for one kind of reason. *)
Definition arcjet_denies (k : ReasonKind) (_ : SlidingWindow) (_ : Request)
    : Error + Decision :=
  inr (arcjet_decision true k).

(** The HTTP-level runs used below. *)
Definition run_update :=
  Controller.updateUser unit fixture_userIdSchema fixture_updateUserSchema
                        fixture_formatValidationError fixture_hashPassword.
Definition run_delete :=
  Controller.deleteUser unit fixture_userIdSchema fixture_formatValidationError.

Definition production : World := fixture_world (Some "production").

(** Alice, a plain user, deletes id 9, which names no row. *)
Definition alice_deletes_9 : Request :=
  fixture_request (Some (as_user alice)) 9 (JObj []) "DELETE".

(** Root, an admin, renames id 9, which names no row. *)
Definition root_renames_9 : Request :=
  fixture_request (Some (as_user root)) 9 (JObj [("name", JStr "Nobody")]) "PUT".

(** Alice asks for the admin role on her own record. *)
Definition alice_promotes_herself : Request :=
  fixture_request (Some (as_user alice)) 1 (JObj [("role", JStr "admin")]) "PUT".

(** Root makes Bob an admin. *)
Definition root_promotes_bob : Request :=
  fixture_request (Some (as_user root)) 2 (JObj [("role", JStr "admin")]) "PUT".

(** Alice deletes Bob. *)
Definition alice_deletes_bob : Request :=
  fixture_request (Some (as_user alice)) 2 (JObj []) "DELETE".

(** Alice takes Bob's email. *)
Definition alice_takes_bobs_email : Request :=
  fixture_request (Some (as_user alice)) 1
                  (JObj [("email", JStr "bob@example.com")]) "PUT".

(** Alice changes her password. *)
Definition alice_changes_password : Request :=
  fixture_request (Some (as_user alice)) 1
                  (JObj [("password", JStr "newpass123")]) "PUT".

(** An anonymous request and one by an admin, from a browser. *)
Definition guest_request : Request :=
  fixture_request None 1 JUndefined "GET".
Definition admin_request : Request :=
  fixture_request (Some (as_user root)) 1 JUndefined "GET".

Definition rate_limited : Reason := mkReason false false true.
Definition unclassified : Reason := mkReason false false false.

(** A verifier that knows two tokens and rejects the rest. *)
Definition fixture_verify (token : string) : Error + Identity :=
  if String.eqb token "alice-token" then inr (as_user alice)
  else if String.eqb token "root-token" then inr (as_user root)
  else inl (mkError "jwt malformed" "at verify").

(** A request from curl, in capitals and with a version. *)
Definition curl_request : Request :=
  mkRequest (Some "CURL/8.4.0") None (JObj []) JUndefined
            "203.0.113.7" "/api/users" "GET".

Definition bot_and_rate_limited : Reason := mkReason true true true.

(** A hasher that always rejects. *)
Definition hash_rejects (_ : string) : Error + string :=
  inl (mkError "Error hashing" "at hashPassword").

Arguments string_of_Z : simpl never.

(* ===================================================================== *)
(** ** Facts about the user store                                         *)
(* ===================================================================== *)

Ltac run_monad :=
  unfold db_select_where, db_select_as_where, db_select_all,
         db_update_where, db_delete_where, client_protect in *;
  unfold logger, lift_result in *;
  unfold try_catch, bind, ret, throw, gets, modify in *;
  cbv beta in *.

(** Case analysis on whatever the goal still branches on. *)
Ltac split_branch :=
  match goal with
  | |- context [match ?x with _ => _ end] =>
      lazymatch x with
      | context [match _ with _ => _ end] => fail
      | _ => destruct x eqn:?
      end
  end.

Lemma service_update_not_found hashPassword id updates w :
  filter (eq_id id) (table w) = [] ->
  Services.updateUser hashPassword id updates w =
    (inl (new_Error "User not found"),
     add_log (mkLog error "Error updating user:" (JStr "User not found")) w).
Proof.
  intros Hnone. unfold Services.updateUser. run_monad.
  rewrite Hnone. reflexivity.
Qed.

Lemma service_delete_not_found id w :
  filter (eq_id id) (table w) = [] ->
  Services.deleteUser id w =
    (inl (new_Error "User not found"),
     add_log (mkLog error "Error deleting user:" (JStr "User not found")) w).
Proof.
  intros Hnone. unfold Services.deleteUser. run_monad.
  rewrite Hnone. reflexivity.
Qed.

Lemma service_update_failure hashPassword id updates w e w' :
  Services.updateUser hashPassword id updates w = (inl e, w') ->
  w' = add_log (mkLog error "Error updating user:" (error_json e)) w.
Proof.
  unfold Services.updateUser. run_monad.
  repeat split_branch; intros H; inversion H; reflexivity.
Qed.

Lemma service_delete_failure id w e w' :
  Services.deleteUser id w = (inl e, w') ->
  w' = add_log (mkLog error "Error deleting user:" (error_json e)) w.
Proof.
  unfold Services.deleteUser. run_monad.
  repeat split_branch; intros H; inversion H; reflexivity.
Qed.

Lemma service_delete_found id w existing rest :
  filter (eq_id id) (table w) = existing :: rest ->
  Services.deleteUser id w =
    (inr (JObj [("id", JNum id); ("message", JStr "User deleted successfully")]),
     add_log (mkLog info ("User " ++ string_of_Z id ++ " deleted successfully")
                    JUndefined)
       (set_table (filter (fun r => negb (eq_id id r)) (table w)) w)).
Proof.
  intros Hf. unfold Services.deleteUser. run_monad.
  rewrite Hf. reflexivity.
Qed.

(** The email check of [updateUser] passes when no row holds the address. *)
Lemma email_check_passes updates existing w :
  email_free updates existing (table w) ->
  match upd_email updates with
  | Some em =>
      if truthy em && negb (String.eqb em (u_email existing)) then
        match firstn 1 (filter (eq_email em) (table w)) with
        | [] => true
        | _ :: _ => false
        end
      else true
  | None => true
  end = true.
Proof.
  intros Hfree. destruct (upd_email updates) as [em|] eqn:Hem; [|reflexivity].
  destruct (truthy em) eqn:Ht; [|reflexivity].
  destruct (String.eqb_spec em (u_email existing)) as [Heq|Hne]; [reflexivity|].
  cbn [andb negb]. rewrite (Hfree em Hem Ht Hne). reflexivity.
Qed.

Ltac update_done Hf :=
  eexists;
  (split; [|split; [|split; [|split]]]);
  [ | | | | cbn beta iota; rewrite ?Hf; reflexivity ];
  reflexivity.

Lemma service_update_success hashPassword id updates w existing rest :
  filter (eq_id id) (table w) = existing :: rest ->
  hash_ok hashPassword updates ->
  email_free updates existing (table w) ->
  exists d,
    d_name d = upd_name updates /\ d_email d = upd_email updates /\
    d_role d = upd_role updates /\ d_updatedAt d = Some (clock w) /\
    Services.updateUser hashPassword id updates w =
      (inr (project public_columns (apply_set d existing)),
       add_log (mkLog info ("User " ++ string_of_Z id ++ " updated successfully")
                      JUndefined)
         (set_table (map (fun r => if eq_id id r then apply_set d r else r)
                         (table w)) w)).
Proof.
  intros Hf Hhash Hfree.
  pose proof (email_check_passes updates existing w Hfree) as Hchk.
  unfold Services.updateUser. run_monad. rewrite Hf.
  change (firstn 1 (existing :: rest)) with [existing].
  unfold hash_ok in Hhash.
  destruct (upd_password updates) as [pw|] eqn:Hpw.
  - destruct (truthy pw) eqn:Htp.
    + destruct (Hhash pw eq_refl Htp) as [h Hh]. rewrite Hh.
      destruct (upd_email updates) as [em|] eqn:Hem.
      * destruct (truthy em && negb (String.eqb em (u_email existing))).
        -- destruct (firstn 1 (filter (eq_email em) (table w))); [|discriminate].
           update_done Hf.
        -- update_done Hf.
      * update_done Hf.
    + destruct (upd_email updates) as [em|] eqn:Hem.
      * destruct (truthy em && negb (String.eqb em (u_email existing))).
        -- destruct (firstn 1 (filter (eq_email em) (table w))); [|discriminate].
           update_done Hf.
        -- update_done Hf.
      * update_done Hf.
  - destruct (upd_email updates) as [em|] eqn:Hem.
    + destruct (truthy em && negb (String.eqb em (u_email existing))).
      * destruct (firstn 1 (filter (eq_email em) (table w))); [|discriminate].
        update_done Hf.
      * update_done Hf.
    + update_done Hf.
Qed.

Lemma filter_nonempty {A} (p : A -> bool) (l : list A) (x : A) :
  In x l -> p x = true -> exists y ys, filter p l = y :: ys.
Proof.
  intros Hin Hp.
  assert (Hx : In x (filter p l)) by (apply filter_In; split; assumption).
  destruct (filter p l) as [|y ys]; [contradiction|].
  exists y, ys. reflexivity.
Qed.

Lemma service_update_conflict hashPassword id updates w existing rest em :
  filter (eq_id id) (table w) = existing :: rest ->
  hash_ok hashPassword updates ->
  upd_email updates = Some em -> truthy em = true ->
  em <> u_email existing ->
  (exists r, In r (table w) /\ u_email r = em) ->
  Services.updateUser hashPassword id updates w =
    (inl (new_Error "Email already in use"),
     add_log (mkLog error "Error updating user:" (JStr "Email already in use")) w).
Proof.
  intros Hf Hhash Hem Ht Hne [r [Hin Hr]].
  destruct (filter_nonempty (eq_email em) (table w) r Hin) as [y [ys Hy]].
  { unfold eq_email. rewrite Hr. apply String.eqb_refl. }
  apply String.eqb_neq in Hne.
  unfold Services.updateUser. run_monad. rewrite Hf.
  change (firstn 1 (existing :: rest)) with [existing].
  rewrite Hem, Ht, Hne. cbn [andb negb].
  unfold hash_ok in Hhash.
  destruct (upd_password updates) as [pw|] eqn:Hpw.
  - destruct (truthy pw) eqn:Htp.
    + destruct (Hhash pw eq_refl Htp) as [h Hh]. rewrite Hh.
      cbn beta iota. rewrite Hy. reflexivity.
    + cbn beta iota. rewrite Hy. reflexivity.
  - cbn beta iota. rewrite Hy. reflexivity.
Qed.

(* ===================================================================== *)
(** ** Facts about the users controller                                   *)
(* ===================================================================== *)

Section ControllerFacts.

Variable ZodError : Type.
Variable userIdSchema : Json -> ZodError + Z.
Variable updateUserSchema : Json -> ZodError + Updates.
Variable formatValidationError : ZodError -> Json.
Variable hashPassword : string -> Error + string.

Let c_update :=
  Controller.updateUser ZodError userIdSchema updateUserSchema
                        formatValidationError hashPassword.
Let c_delete :=
  Controller.deleteUser ZodError userIdSchema formatValidationError.

(** A validated, authenticated update: the two gate checks, then the store. *)
Lemma controller_update_steps req w id updates user :
  userIdSchema (req_params req) = inr id ->
  updateUserSchema (req_body req) = inr updates ->
  req_user req = Some user ->
  c_update req w =
    if negb (user_id user =? id) && negb (String.eqb (user_role user) "admin")
    then (inr (forbidden "You can only update your own profile"), w)
    else if truthy_opt (upd_role updates)
            && negb (String.eqb (user_role user) "admin")
    then (inr (forbidden "Only admins can change user roles"), w)
    else
      match Services.updateUser hashPassword id updates
              (add_log (mkLog info ("Updating user " ++ string_of_Z id)
                              JUndefined) w) with
      | (inr updatedUser, w') =>
          (inr (Respond 200 (JObj [("message", JStr "User updated successfully");
                                   ("user", updatedUser)])), w')
      | (inl e, w') =>
          (inr (update_catch e),
           add_log (mkLog error "Error updating user:" (error_json e)) w')
      end.
Proof.
  intros Hid Hbody Huser.
  unfold c_update, Controller.updateUser, update_catch, forbidden. run_monad.
  rewrite Hid, Hbody, Huser.
  destruct (negb (user_id user =? id) && negb (String.eqb (user_role user) "admin"));
    [reflexivity|].
  destruct (truthy_opt (upd_role updates) && negb (String.eqb (user_role user) "admin"));
    [reflexivity|].
  destruct (Services.updateUser _ _ _ _) as [[e|j] w']; [|reflexivity].
  repeat split_branch; reflexivity.
Qed.

Lemma controller_delete_steps req w id user :
  userIdSchema (req_params req) = inr id ->
  req_user req = Some user ->
  c_delete req w =
    if negb (user_id user =? id) && negb (String.eqb (user_role user) "admin")
    then (inr (forbidden "You can only delete your own profile or be an admin"), w)
    else
      match Services.deleteUser id
              (add_log (mkLog info ("Deleting user " ++ string_of_Z id)
                              JUndefined) w) with
      | (inr result, w') =>
          (inr (Respond 200 (JObj [("message", JStr "User deleted successfully");
                                   ("result", result)])), w')
      | (inl e, w') =>
          (inr (delete_catch e),
           add_log (mkLog error "Error deleting user:" (error_json e)) w')
      end.
Proof.
  intros Hid Huser.
  unfold c_delete, Controller.deleteUser, delete_catch, forbidden. run_monad.
  rewrite Hid, Huser.
  destruct (negb (user_id user =? id) && negb (String.eqb (user_role user) "admin"));
    [reflexivity|].
  destruct (Services.deleteUser _ _) as [[e|j] w']; [|reflexivity].
  repeat split_branch; reflexivity.
Qed.

End ControllerFacts.

Lemma absent_filter id t : absent id t -> filter (eq_id id) t = [].
Proof.
  intros Habs. induction t as [|r t IH]; [reflexivity|].
  cbn [filter]. unfold eq_id at 1.
  destruct (Z.eqb_spec (u_id r) id) as [Heq|Hne].
  - exfalso. apply (Habs r); [left; reflexivity | exact Heq].
  - apply IH. intros r' Hin. apply Habs. right. exact Hin.
Qed.

Lemma find_filter {A} (p : A -> bool) (l : list A) (x : A) :
  find p l = Some x -> exists rest, filter p l = x :: rest.
Proof.
  induction l as [|a l IH]; [discriminate|].
  cbn [find filter]. destruct (p a).
  - intros H. inversion H. subst. eexists. reflexivity.
  - exact IH.
Qed.

(** The table an update leaves: rows of the target id carry the new role. *)
Lemma updated_rows_role id d r t row :
  d_role d = Some r ->
  In row (map (fun x => if eq_id id x then apply_set d x else x) t) ->
  u_id row = id -> u_role row = r.
Proof.
  intros Hd Hin Hid. apply in_map_iff in Hin. destruct Hin as [x [Hx _]].
  destruct (eq_id id x) eqn:Hx_id.
  - subst row. cbn. rewrite Hd. reflexivity.
  - subst row. unfold eq_id in Hx_id. apply Z.eqb_neq in Hx_id. contradiction.
Qed.

Lemma updated_rows_keep_target id d t existing rest :
  filter (eq_id id) t = existing :: rest ->
  exists row,
    In row (map (fun x => if eq_id id x then apply_set d x else x) t) /\
    u_id row = id.
Proof.
  intros Hf.
  assert (Hin : In existing (filter (eq_id id) t)) by (rewrite Hf; left; reflexivity).
  apply filter_In in Hin. destruct Hin as [Hin Hp].
  exists (apply_set d existing). split.
  - apply in_map_iff. exists existing. rewrite Hp. split; [reflexivity | exact Hin].
  - cbn. unfold eq_id in Hp. apply Z.eqb_eq. exact Hp.
Qed.

(* ===================================================================== *)
(** ** What the store hands out                                           *)
(* ===================================================================== *)









(* ===================================================================== *)
(** ** The access control gate and the user store                         *)
(* ===================================================================== *)

Section AccessControl.

Variable ZodError : Type.
Variable userIdSchema : Json -> ZodError + Z.
Variable updateUserSchema : Json -> ZodError + Updates.
Variable formatValidationError : ZodError -> Json.
Variable hashPassword : string -> Error + string.

Let c_update :=
  Controller.updateUser ZodError userIdSchema updateUserSchema
                        formatValidationError hashPassword.
Let c_delete :=
  Controller.deleteUser ZodError userIdSchema formatValidationError.
Let c_get :=
  Controller.getUserById ZodError userIdSchema formatValidationError.

Let update_steps :=
  controller_update_steps ZodError userIdSchema updateUserSchema
                          formatValidationError hashPassword.
Let delete_steps :=
  controller_delete_steps ZodError userIdSchema formatValidationError.

(** Decide the two conditions of the gate from their statements. *)
Ltac gate_facts :=
  repeat match goal with
  | H : ?a = ?b :> Z |- context [Z.eqb ?a ?b] => rewrite (proj2 (Z.eqb_eq a b) H)
  | H : ?a <> ?b :> Z |- context [Z.eqb ?a ?b] => rewrite (proj2 (Z.eqb_neq a b) H)
  | H : ?a = ?b :> string |- context [String.eqb ?a ?b] =>
      rewrite (proj2 (String.eqb_eq a b) H)
  | H : ?a <> ?b :> string |- context [String.eqb ?a ?b] =>
      rewrite (proj2 (String.eqb_neq a b) H)
  | H : truthy_opt ?o = _ |- context [truthy_opt ?o] => rewrite H
  end;
  cbn [negb andb orb]; rewrite ?andb_false_r, ?andb_true_r; cbn [negb andb orb].

(** C1 (as amended).  On a target id that names no row, a validated request
    of an authenticated actor is answered 404 "User not found" exactly when
    the actor passes the access control gate, which runs before the store is
    consulted: the owner or an admin on delete; on update the owner or an
    admin who, unless admin, requests no role change.  An actor the gate
    turns away is answered 403 although the id does not exist.  The table is
    the same afterwards in every case. *)
Theorem missing_target_not_found_after_gate req w id updates user :
  userIdSchema (req_params req) = inr id ->
  updateUserSchema (req_body req) = inr updates ->
  req_user req = Some user ->
  absent id (table w) ->
  (user_id user = id \/ user_role user = "admin" ->
     status_of (c_delete req w) = Some 404 /\
     (truthy_opt (upd_role updates) = false \/ user_role user = "admin" ->
      status_of (c_update req w) = Some 404)) /\
  (user_id user <> id /\ user_role user <> "admin" ->
     status_of (c_delete req w) = Some 403 /\
     status_of (c_update req w) = Some 403) /\
  (truthy_opt (upd_role updates) = true /\ user_role user <> "admin" ->
     status_of (c_update req w) = Some 403) /\
  table (snd (c_delete req w)) = table w /\
  table (snd (c_update req w)) = table w.
Proof.
  intros Hid Hbody Huser Habs.
  pose proof (absent_filter id (table w) Habs) as Hnone.
  unfold c_update, c_delete.
  rewrite (update_steps req w id updates user Hid Hbody Huser).
  rewrite (delete_steps req w id user Hid Huser).
  rewrite service_update_not_found by exact Hnone.
  rewrite service_delete_not_found by exact Hnone.
  split; [|split; [|split; [|split]]].
  - intros Hpass. split.
    + destruct Hpass as [Hown|Hadm]; gate_facts; reflexivity.
    + intros [Hrole|Hadm'].
      * destruct Hpass as [Hown|Hadm]; gate_facts; reflexivity.
      * gate_facts. reflexivity.
  - intros [Hown Hadm]. gate_facts. split; reflexivity.
  - intros [Hrole Hadm]. gate_facts.
    destruct (negb (user_id user =? id)); reflexivity.
  - destruct (negb (user_id user =? id) && negb (String.eqb (user_role user) "admin"));
      reflexivity.
  - destruct (negb (user_id user =? id) && negb (String.eqb (user_role user) "admin"));
      [reflexivity|].
    destruct (truthy_opt (upd_role updates)
              && negb (String.eqb (user_role user) "admin")); reflexivity.
Qed.

(** C5.  For a validated update and a validated delete of an authenticated
    actor the same rule applies: an actor who is neither the owner of the
    target id nor an admin is answered 403 Forbidden and nothing else
    happens; the owner or an admin passes the check.  Delete has no further
    gate, so an actor who passes it is never answered 403; update answers
    403 to such an actor only for a role change by a non-admin. *)
Theorem ownership_or_admin_rule req w id updates user :
  userIdSchema (req_params req) = inr id ->
  updateUserSchema (req_body req) = inr updates ->
  req_user req = Some user ->
  (user_id user <> id /\ user_role user <> "admin" ->
     c_update req w =
       (inr (forbidden "You can only update your own profile"), w) /\
     c_delete req w =
       (inr (forbidden "You can only delete your own profile or be an admin"), w)) /\
  (user_id user = id \/ user_role user = "admin" ->
     status_of (c_delete req w) <> Some 403 /\
     fst (c_update req w) <>
       inr (forbidden "You can only update your own profile") /\
     (truthy_opt (upd_role updates) = false \/ user_role user = "admin" ->
      status_of (c_update req w) <> Some 403)).
Proof.
  intros Hid Hbody Huser. unfold c_update, c_delete.
  rewrite (update_steps req w id updates user Hid Hbody Huser).
  rewrite (delete_steps req w id user Hid Huser).
  split.
  - intros [Hown Hadm]. gate_facts. split; reflexivity.
  - intros Hpass.
    assert (Hgate : negb (user_id user =? id)
                    && negb (String.eqb (user_role user) "admin") = false).
    { destruct Hpass as [Hown|Hadm]; gate_facts; reflexivity. }
    rewrite Hgate. split; [|split].
    + destruct (Services.deleteUser _ _) as [[e|j] w']; [|discriminate].
      unfold status_of, delete_catch. cbn [fst].
      destruct (String.eqb (e_message e) "User not found"); discriminate.
    + destruct (truthy_opt (upd_role updates)
                && negb (String.eqb (user_role user) "admin")); [discriminate|].
      destruct (Services.updateUser _ _ _ _) as [[e|j] w']; [|discriminate].
      unfold update_catch. cbn [fst].
      repeat split_branch; discriminate.
    + intros Hrole.
      assert (Hgate2 : truthy_opt (upd_role updates)
                       && negb (String.eqb (user_role user) "admin") = false).
      { destruct Hrole as [Hrole|Hadm]; gate_facts; reflexivity. }
      rewrite Hgate2.
      destruct (Services.updateUser _ _ _ _) as [[e|j] w']; [|discriminate].
      unfold status_of, update_catch. cbn [fst].
      repeat split_branch; discriminate.
Qed.

(** C4.  A validated update of an authenticated actor that asks for a role
    change is answered 403 Forbidden whenever the actor is not an admin,
    also when the actor targets their own record, and nothing is written.
    An admin, also one acting on another user's record, is let through: when
    the target exists, the password (if any) hashes and the new email (if
    any) is free, the answer is 200 and the target carries the new role. *)
Theorem role_change_requires_admin req w id updates user :
  userIdSchema (req_params req) = inr id ->
  updateUserSchema (req_body req) = inr updates ->
  req_user req = Some user ->
  (truthy_opt (upd_role updates) = true -> user_role user <> "admin" ->
     c_update req w =
       (inr (forbidden (if user_id user =? id
                        then "Only admins can change user roles"
                        else "You can only update your own profile")), w)) /\
  (forall r existing,
     upd_role updates = Some r -> truthy r = true ->
     user_role user = "admin" ->
     find (eq_id id) (table w) = Some existing ->
     hash_ok hashPassword updates ->
     email_free updates existing (table w) ->
     exists body w',
       c_update req w = (inr (Respond 200 body), w') /\
       (forall row, In row (table w') -> u_id row = id -> u_role row = r) /\
       (exists row, In row (table w') /\ u_id row = id)).
Proof.
  intros Hid Hbody Huser. unfold c_update.
  rewrite (update_steps req w id updates user Hid Hbody Huser).
  split.
  - intros Hrole Hadm. gate_facts.
    destruct (user_id user =? id); reflexivity.
  - intros r existing Hr Htr Hadm Hfind Hhash Hfree.
    gate_facts.
    destruct (find_filter _ _ _ Hfind) as [rest Hf].
    destruct (service_update_success hashPassword id updates
                (add_log (mkLog info ("Updating user " ++ string_of_Z id)
                                JUndefined) w)
                existing rest Hf Hhash Hfree)
      as [d [_ [_ [Hd [_ Hrun]]]]].
    rewrite Hrun. eexists. eexists. split; [reflexivity|].
    cbn [table add_log set_table]. rewrite Hr in Hd. split.
    + intros row Hin Hrow. exact (updated_rows_role id d r _ row Hd Hin Hrow).
    + exact (updated_rows_keep_target id d _ existing rest Hf).
Qed.

(** C6.  In [update(id, changes)] with an email among the changes: when it
    differs from the target's current email and some row already holds it,
    the store operation throws "Email already in use" and leaves the table
    as it was, and the handler answers 409 to every actor that reaches the
    store, whatever the role; when it equals the current email the check is
    skipped and the update goes through even though a row holds that
    email.  The password, where one is supplied, is hashed before the
    check, so it is taken to hash. *)
Theorem email_conflict_on_update id updates w existing em :
  find (eq_id id) (table w) = Some existing ->
  upd_email updates = Some em -> truthy em = true ->
  hash_ok hashPassword updates ->
  (em <> u_email existing ->
   (exists r, In r (table w) /\ u_email r = em) ->
     (exists w',
        Services.updateUser hashPassword id updates w =
          (inl (new_Error "Email already in use"), w') /\
        table w' = table w) /\
     (forall req user,
        userIdSchema (req_params req) = inr id ->
        updateUserSchema (req_body req) = inr updates ->
        req_user req = Some user ->
        user_id user = id \/ user_role user = "admin" ->
        truthy_opt (upd_role updates) = false \/ user_role user = "admin" ->
        exists w',
          c_update req w =
            (inr (Respond 409 (JObj [("error", JStr "Email already in use")])),
             w') /\
          table w' = table w)) /\
  (em = u_email existing ->
     exists updatedUser w',
       Services.updateUser hashPassword id updates w = (inr updatedUser, w')).
Proof.
  intros Hfind Hem Ht Hhash.
  destruct (find_filter _ _ _ Hfind) as [rest Hf].
  split.
  - intros Hne Hheld. split.
    + eexists. split.
      * exact (service_update_conflict hashPassword id updates w existing rest
                 em Hf Hhash Hem Ht Hne Hheld).
      * reflexivity.
    + intros req user Hid Hbody Huser Hpass Hrole. unfold c_update.
      rewrite (update_steps req w id updates user Hid Hbody Huser).
      assert (Hgate : negb (user_id user =? id)
                      && negb (String.eqb (user_role user) "admin") = false).
      { destruct Hpass as [Hown|Hadm]; gate_facts; reflexivity. }
      assert (Hgate2 : truthy_opt (upd_role updates)
                       && negb (String.eqb (user_role user) "admin") = false).
      { destruct Hrole as [Hrole|Hadm]; gate_facts; reflexivity. }
      rewrite Hgate, Hgate2.
      rewrite (service_update_conflict hashPassword id updates
                 (add_log (mkLog info ("Updating user " ++ string_of_Z id)
                                 JUndefined) w)
                 existing rest em Hf Hhash Hem Ht Hne Hheld).
      eexists. split; reflexivity.
  - intros Heq.
    assert (Hfree : email_free updates existing (table w)).
    { intros em' Hem' _ Hne'. rewrite Hem in Hem'. inversion Hem'.
      subst em'. contradiction. }
    destruct (service_update_success hashPassword id updates w existing rest
                Hf Hhash Hfree) as [d [_ [_ [_ [_ Hrun]]]]].
    rewrite Hrun. eexists. eexists. reflexivity.
Qed.

(** C10.  Every failure of [update(id, changes)], "User not found" and
    "Email already in use" among them, is thrown before the write: the
    table is the one the call started from, and all that changed in the
    world is the error entry the [catch] logs before rethrowing. *)
Theorem update_failure_is_atomic id updates w e w' :
  Services.updateUser hashPassword id updates w = (inl e, w') ->
  table w' = table w /\
  w' = add_log (mkLog error "Error updating user:" (error_json e)) w.
Proof.
  intros Hrun.
  pose proof (service_update_failure hashPassword id updates w e w' Hrun) as Hw.
  split; [|exact Hw]. rewrite Hw. reflexivity.
Qed.


End AccessControl.

(* ===================================================================== *)
(** ** The rate/abuse gate                                                *)
(* ===================================================================== *)

Section RateGate.

Variable protect : SlidingWindow -> Request -> Error + Decision.


(** The ceiling the [switch] selects. *)
Lemma ceiling_by_role role :
  fst (limit_and_message role) =
    if String.eqb role "admin" then 20
    else if String.eqb role "user" then 10 else 5.
Proof.
  unfold limit_and_message.
  destruct (String.eqb role "admin"); [reflexivity|].
  destruct (String.eqb role "user"); [reflexivity|].
  destruct (String.eqb role "guest"); reflexivity.
Qed.

(** In production, past the allow-list, the gated variant asks the decision
    service once and acts on what comes back. *)
Lemma gate_production_steps req w :
  NODE_ENV w = Some "production" ->
  whitelisted req = false ->
  Gate.securityMiddleware protect req w =
    match protect (rule_for req) req with
    | inl e =>
        (inr (Next None),
         add_log (arcjet_error_log req e) (add_call (rule_for req) w))
    | inr decision =>
        if isDenied decision then
          if isBot (reason decision) then
            (inr (forbidden "Automated requests are not allowed"),
             add_log (mkLog warn "Bot request blocked"
                        (JObj [("ip", JStr (req_ip req));
                               ("userAgent", opt_json (req_user_agent req));
                               ("path", JStr (req_path req));
                               ("method", JStr (req_method req))]))
                     (add_call (rule_for req) w))
          else if isShield (reason decision) then
            (inr (forbidden "Request blocked by security policy"),
             add_log (mkLog warn "Shield blocked request"
                        (JObj [("ip", JStr (req_ip req));
                               ("userAgent", opt_json (req_user_agent req));
                               ("path", JStr (req_path req));
                               ("method", JStr (req_method req))]))
                     (add_call (rule_for req) w))
          else if isRateLimit (reason decision) then
            (inr (too_many_requests (snd (limit_and_message (role_of req)))),
             add_log (mkLog warn "Rate limit exceeded"
                        (JObj [("ip", JStr (req_ip req));
                               ("userAgent", opt_json (req_user_agent req));
                               ("path", JStr (req_path req));
                               ("role", JStr (role_of req))]))
                     (add_call (rule_for req) w))
          else (inr (Next None), add_call (rule_for req) w)
        else (inr (Next None), add_call (rule_for req) w)
    end.
Proof.
  intros Henv Hwl. unfold Gate.securityMiddleware, rule_for.
  unfold whitelisted in Hwl. run_monad. rewrite Henv, Hwl.
  cbn [or_default truthy String.eqb Ascii.eqb Bool.eqb negb].
  destruct (limit_and_message (role_of req)) as [limit message].
  cbn [fst snd].
  destruct (protect _ req) as [e|decision]; [reflexivity|].
  cbn beta iota.
  destruct (isDenied decision); [|reflexivity].
  destruct (isBot (reason decision)); [reflexivity|].
  destruct (isShield (reason decision)); [reflexivity|].
  destruct (isRateLimit (reason decision)); reflexivity.
Qed.

(** The ungated variant asks the decision service on every request. *)
Lemma ungated_steps req w :
  UngatedGate.securityMiddleware protect req w =
    match protect (rule_for req) req with
    | inl e =>
        (inr internal_server_error,
         add_log (mkLog console_log "Arcjet Middleware Error:" (error_json e))
                 (add_call (rule_for req) w))
    | inr decision =>
        if isDenied decision then
          if isBot (reason decision) then
            (inr (forbidden "Automated requests are not allowed"),
             add_log (mkLog warn "Bot request blocked"
                        (JObj [("ip", JStr (req_ip req));
                               ("userAgent", opt_json (req_user_agent req));
                               ("path", JStr (req_path req))]))
                     (add_call (rule_for req) w))
          else if isShield (reason decision) then
            (inr (forbidden "Request blocked by security policy"),
             add_log (mkLog warn "Shield Blocked Request"
                        (JObj [("ip", JStr (req_ip req));
                               ("userAgent", opt_json (req_user_agent req));
                               ("path", JStr (req_path req));
                               ("method", JStr (req_method req))]))
                     (add_call (rule_for req) w))
          else if isRateLimit (reason decision) then
            (inr (too_many_requests "Too many requests"),
             add_log (mkLog warn "Rate limit exceeded"
                        (JObj [("ip", JStr (req_ip req));
                               ("userAgent", opt_json (req_user_agent req));
                               ("path", JStr (req_path req))]))
                     (add_call (rule_for req) w))
          else (inr (Next None), add_call (rule_for req) w)
        else (inr (Next None), add_call (rule_for req) w)
    end.
Proof.
  unfold UngatedGate.securityMiddleware, rule_for, internal_server_error.
  run_monad.
  destruct (limit_and_message (role_of req)) as [limit message].
  cbn [fst snd].
  destruct (protect _ req) as [e|decision]; [reflexivity|].
  cbn beta iota.
  destruct (isDenied decision); [|reflexivity].
  destruct (isBot (reason decision)); [reflexivity|].
  destruct (isShield (reason decision)); [reflexivity|].
  destruct (isRateLimit (reason decision)); reflexivity.
Qed.


(** C2 (as amended).  When the call to the decision service throws, the
    variant gated on the deployment mode logs the error and lets the request
    go on to the next handler, answering nothing itself; the variant
    without that gate prints the error and answers 500. *)
Theorem gate_fails_open_ungated_fails_closed req w e :
  protect (rule_for req) req = inl e ->
  (NODE_ENV w = Some "production" -> whitelisted req = false ->
   Gate.securityMiddleware protect req w =
     (inr (Next None),
      add_log (arcjet_error_log req e) (add_call (rule_for req) w))) /\
  UngatedGate.securityMiddleware protect req w =
    (inr internal_server_error,
     add_log (mkLog console_log "Arcjet Middleware Error:" (error_json e))
             (add_call (rule_for req) w)).
Proof.
  intros Hthrow. split.
  - intros Henv Hwl.
    rewrite (gate_production_steps req w Henv Hwl), Hthrow. reflexivity.
  - rewrite ungated_steps, Hthrow. reflexivity.
Qed.

(** The fall-through the text of the gated variant provides for: were the
    three reads of the reason falsy on a denied decision, no branch of
    l. 72-111 would answer and l. 113 would call [next()], with nothing
    logged.  No decision of the library gets there, see [read_uncalled]. *)
Theorem unclassified_denial_falls_through req w decision :
  NODE_ENV w = Some "production" ->
  whitelisted req = false ->
  protect (rule_for req) req = inr decision ->
  isDenied decision = true ->
  isBot (reason decision) = false ->
  isShield (reason decision) = false ->
  isRateLimit (reason decision) = false ->
  Gate.securityMiddleware protect req w =
    (inr (Next None), add_call (rule_for req) w) /\
  logs (snd (Gate.securityMiddleware protect req w)) = logs w.
Proof.
  intros Henv Hwl Hdec Hden Hbot Hshield Hrate.
  rewrite (gate_production_steps req w Henv Hwl), Hdec, Hden, Hbot, Hshield, Hrate.
  split; reflexivity.
Qed.

(** The part of C7 both variants share: the rule carries the ceiling of the
    role, 20 for admin, 10 for user and 5 for guest and for any other role,
    and a denial for the rate limit alone is answered 429; the gated variant
    sends the message the [switch] chose. *)
Lemma rate_limit_answer req w decision :
  protect (rule_for req) req = inr decision ->
  isDenied decision = true ->
  isBot (reason decision) = false ->
  isShield (reason decision) = false ->
  isRateLimit (reason decision) = true ->
  sw_max (rule_for req) =
    (if String.eqb (role_of req) "admin" then 20
     else if String.eqb (role_of req) "user" then 10 else 5) /\
  status_of (UngatedGate.securityMiddleware protect req w) = Some 429 /\
  (NODE_ENV w = Some "production" -> whitelisted req = false ->
   fst (Gate.securityMiddleware protect req w) =
     inr (too_many_requests (snd (limit_and_message (role_of req))))).
Proof.
  intros Hdec Hden Hbot Hshield Hrate. split; [|split].
  - apply ceiling_by_role.
  - rewrite ungated_steps, Hdec, Hden, Hbot, Hshield, Hrate. reflexivity.
  - intros Henv Hwl.
    rewrite (gate_production_steps req w Henv Hwl), Hdec, Hden, Hbot, Hshield, Hrate.
    reflexivity.
Qed.

End RateGate.

(* ===================================================================== *)
(** ** Concrete runs                                                      *)
(* ===================================================================== *)

Lemma nine_is_absent : absent 9 (table production).
Proof.
  intros r [H|[H|[H|[]]]]; subst r; discriminate.
Defined.

(** C1, the claim as stated fails: Alice, neither owner of id 9 nor admin,
    deletes an id that names no row and is answered 403, not 404. *)
Lemma missing_target_forbidden_counterexample :
  absent 9 (table production) /\
  req_user alice_deletes_9 = Some (as_user alice) /\
  fixture_userIdSchema (req_params alice_deletes_9) = inr 9 /\
  run_delete alice_deletes_9 production =
    (inr (forbidden "You can only delete your own profile or be an admin"),
     production) /\
  status_of (run_delete alice_deletes_9 production) <> Some 404.
Proof.
  split; [exact nine_is_absent|].
  split; [reflexivity|]. split; [reflexivity|].
  split; [vm_compute; reflexivity | vm_compute; discriminate].
Qed.

Lemma missing_target_not_found_after_gate_witness :
  absent 9 (table production) /\
  status_of (run_delete root_renames_9 production) = Some 404 /\
  status_of (run_update root_renames_9 production) = Some 404 /\
  status_of (run_delete alice_deletes_9 production) = Some 403.
Proof.
  split; [exact nine_is_absent|].
  destruct (missing_target_not_found_after_gate
              unit fixture_userIdSchema fixture_updateUserSchema
              fixture_formatValidationError fixture_hashPassword
              root_renames_9 production 9
              (mkUpdates (Some "Nobody") None None None) (as_user root)
              eq_refl eq_refl eq_refl nine_is_absent) as [Hpass _].
  destruct (Hpass (or_intror eq_refl)) as [Hdel Hupd].
  split; [exact Hdel|]. split; [exact (Hupd (or_introl eq_refl))|].
  destruct (missing_target_not_found_after_gate
              unit fixture_userIdSchema fixture_updateUserSchema
              fixture_formatValidationError fixture_hashPassword
              alice_deletes_9 production 9
              (mkUpdates None None None None) (as_user alice)
              eq_refl eq_refl eq_refl nine_is_absent) as [_ [Hdeny _]].
  apply Hdeny. split; discriminate.
Defined.

Lemma fixture_hash_ok updates : hash_ok fixture_hashPassword updates.
Proof.
  intros pw _ _. exists ("hashed:" ++ pw)%string. reflexivity.
Defined.

Lemma ownership_or_admin_rule_witness :
  user_id (as_user alice) <> 2 /\ user_role (as_user alice) <> "admin" /\
  run_update alice_deletes_bob production =
    (inr (forbidden "You can only update your own profile"), production) /\
  run_delete alice_deletes_bob production =
    (inr (forbidden "You can only delete your own profile or be an admin"),
     production).
Proof.
  assert (Hown : user_id (as_user alice) <> 2) by discriminate.
  assert (Hrole : user_role (as_user alice) <> "admin") by discriminate.
  split; [exact Hown|]. split; [exact Hrole|].
  destruct (ownership_or_admin_rule
              unit fixture_userIdSchema fixture_updateUserSchema
              fixture_formatValidationError fixture_hashPassword
              alice_deletes_bob production 2
              (mkUpdates None None None None) (as_user alice)
              eq_refl eq_refl eq_refl) as [Hdeny _].
  exact (Hdeny (conj Hown Hrole)).
Defined.

Lemma role_change_requires_admin_witness :
  run_update alice_promotes_herself production =
    (inr (forbidden "Only admins can change user roles"), production) /\
  exists body w',
    run_update root_promotes_bob production = (inr (Respond 200 body), w') /\
    (forall row, In row (table w') -> u_id row = 2 -> u_role row = "admin") /\
    (exists row, In row (table w') /\ u_id row = 2).
Proof.
  split.
  - destruct (role_change_requires_admin
                unit fixture_userIdSchema fixture_updateUserSchema
                fixture_formatValidationError fixture_hashPassword
                alice_promotes_herself production 1
                (mkUpdates None None None (Some "admin")) (as_user alice)
                eq_refl eq_refl eq_refl) as [Hdeny _].
    apply Hdeny; [reflexivity | discriminate].
  - destruct (role_change_requires_admin
                unit fixture_userIdSchema fixture_updateUserSchema
                fixture_formatValidationError fixture_hashPassword
                root_promotes_bob production 2
                (mkUpdates None None None (Some "admin")) (as_user root)
                eq_refl eq_refl eq_refl) as [_ Hallow].
    apply (Hallow "admin" bob); try reflexivity.
    + apply fixture_hash_ok.
    + intros em Hem. discriminate Hem.
Defined.

Lemma email_conflict_on_update_witness :
  find (eq_id 1) (table production) = Some alice /\
  In bob (table production) /\ u_email bob <> u_email alice /\
  (exists w',
     Services.updateUser fixture_hashPassword 1
       (mkUpdates None (Some (u_email bob)) None None) production =
       (inl (new_Error "Email already in use"), w') /\
     table w' = table production) /\
  (exists w',
     run_update alice_takes_bobs_email production =
       (inr (Respond 409 (JObj [("error", JStr "Email already in use")])), w') /\
     table w' = table production).
Proof.
  assert (Hin : In bob (table production)) by (right; left; reflexivity).
  assert (Hne : u_email bob <> u_email alice) by discriminate.
  split; [reflexivity|]. split; [exact Hin|]. split; [exact Hne|].
  destruct (email_conflict_on_update
              unit fixture_userIdSchema fixture_updateUserSchema
              fixture_formatValidationError fixture_hashPassword
              1 (mkUpdates None (Some (u_email bob)) None None) production
              alice (u_email bob) eq_refl eq_refl eq_refl
              (fixture_hash_ok _)) as [Hconflict _].
  destruct (Hconflict Hne (ex_intro _ bob (conj Hin eq_refl))) as [Hsvc Hctl].
  split; [exact Hsvc|].
  apply (Hctl alice_takes_bobs_email (as_user alice));
    try reflexivity; left; reflexivity.
Defined.

Lemma update_failure_is_atomic_witness :
  Services.updateUser fixture_hashPassword 9
    (mkUpdates (Some "Nobody") None None None) production =
    (inl (new_Error "User not found"),
     add_log (mkLog error "Error updating user:" (JStr "User not found"))
             production) /\
  table (add_log (mkLog error "Error updating user:" (JStr "User not found"))
                 production) = table production.
Proof.
  assert (Hrun : Services.updateUser fixture_hashPassword 9
                   (mkUpdates (Some "Nobody") None None None) production =
                 (inl (new_Error "User not found"),
                  add_log (mkLog error "Error updating user:"
                                 (JStr "User not found")) production))
    by reflexivity.
  split; [exact Hrun|].
  exact (proj1 (update_failure_is_atomic fixture_hashPassword 9 _ production
                  _ _ Hrun)).
Defined.


(** C2, the claim as stated fails: in the variant without the deployment
    gate a throwing decision service is answered 500, not passed on. *)
Lemma ungated_gate_fails_closed_counterexample :
  protect_throws (rule_for guest_request) guest_request =
    inl (mkError "decision service unavailable" "at protect") /\
  fst (UngatedGate.securityMiddleware protect_throws guest_request production) =
    inr internal_server_error /\
  status_of (UngatedGate.securityMiddleware protect_throws guest_request
               production) = Some 500 /\
  fst (UngatedGate.securityMiddleware protect_throws guest_request production) <>
    inr (Next None).
Proof.
  split; [reflexivity|]. split; [vm_compute; reflexivity|].
  split; [vm_compute; reflexivity | vm_compute; discriminate].
Qed.

Lemma gate_fails_open_ungated_fails_closed_witness :
  NODE_ENV production = Some "production" /\
  whitelisted guest_request = false /\
  Gate.securityMiddleware protect_throws guest_request production =
    (inr (Next None),
     add_log (arcjet_error_log guest_request
                (mkError "decision service unavailable" "at protect"))
             (add_call (rule_for guest_request) production)).
Proof.
  assert (Hwl : whitelisted guest_request = false) by (vm_compute; reflexivity).
  split; [reflexivity|]. split; [exact Hwl|].
  exact (proj1 (gate_fails_open_ungated_fails_closed protect_throws
                  guest_request production _ eq_refl) eq_refl Hwl).
Defined.



(** The 429 branches as written, on reads of the reason that single out
    the rate limit: the variant without the deployment gate would answer an
    admin and a guest with the same fixed message, although its [switch] set
    a message per role; the gated variant would send the message of the
    role.  No decision of the library gets there, see [read_uncalled]. *)
Theorem ungated_rate_limit_message_ignores_role :
  role_of admin_request = "admin" /\ role_of guest_request = "guest" /\
  UngatedGate.securityMiddleware (protect_denies rate_limited) admin_request
      production =
    (inr (too_many_requests "Too many requests"),
     add_log (mkLog warn "Rate limit exceeded"
                (JObj [("ip", JStr "203.0.113.7");
                       ("userAgent", JStr "Mozilla/5.0");
                       ("path", JStr "/api/users/1")]))
       (add_call (slidingWindow "LIVE" "1m" 20 "admin-rate-limit") production)) /\
  fst (UngatedGate.securityMiddleware (protect_denies rate_limited) guest_request
         production) =
    inr (too_many_requests "Too many requests") /\
  snd (limit_and_message "admin") =
    "Admin request limit exceeded (20 per minute). Slow down!" /\
  snd (limit_and_message "guest") =
    "Guest request limit exceeded (5 per minute). Slow down!" /\
  fst (Gate.securityMiddleware (protect_denies rate_limited) admin_request
         production) =
    inr (too_many_requests
           "Admin request limit exceeded (20 per minute). Slow down!").
Proof.
  repeat split; vm_compute; reflexivity.
Qed.

(* ===================================================================== *)
(** ** More on the user store                                             *)
(* ===================================================================== *)

(** The row function of the update statement. *)
Abbreviation update_row id d := (fun r => if eq_id id r then apply_set d r else r).

Lemma apply_set_keeps_id d r : eq_id (u_id r) (apply_set d r) = true.
Proof. unfold eq_id. cbn. apply Z.eqb_refl. Qed.

Lemma filter_updated_rows id d t :
  filter (eq_id id) (map (update_row id d) t) =
  map (apply_set d) (filter (eq_id id) t).
Proof.
  induction t as [|r t IH]; [reflexivity|].
  cbn [map filter]. destruct (eq_id id r) eqn:Hr.
  - assert (Hr' : eq_id id (apply_set d r) = true) by exact Hr.
    rewrite Hr'. cbn [map]. rewrite IH. reflexivity.
  - rewrite Hr. exact IH.
Qed.

Lemma first_of_nonempty {A} (l : list A) :
  firstn 1 l = [] -> l = [].
Proof. destruct l; [reflexivity | discriminate]. Qed.

Ltac password_goal :=
  let pw' := fresh "pw" in
  let Hpw' := fresh "Hpw" in
  intros pw' Hpw';
  first
    [ discriminate Hpw'
    | inversion Hpw'; subst;
      match goal with
      | Ht : truthy _ = _ |- _ => rewrite Ht
      end;
      first [ reflexivity | eexists; split; [eassumption | reflexivity] ] ].

Ltac email_goal :=
  let em' := fresh "em" in
  let Hem' := fresh "Hem" in
  let Htem := fresh "Htem" in
  let Hne := fresh "Hne" in
  intros em' Hem' Htem Hne;
  first
    [ discriminate Hem'
    | inversion Hem'; subst;
      first
        [ assumption
        | match goal with
          | Hchk : truthy _ && negb _ = false |- _ =>
              rewrite Htem in Hchk; apply String.eqb_neq in Hne;
              rewrite Hne in Hchk; discriminate Hchk
          end ] ].

(** What a successful update did: the target was found, the data set is the
    supplied fields with the password hashed and the clock as updatedAt, the
    email check passed, and the one statement wrote the rows of that id. *)
Lemma service_update_inversion hashPassword id updates w j w' :
  Services.updateUser hashPassword id updates w = (inr j, w') ->
  exists existing rest d,
    filter (eq_id id) (table w) = existing :: rest /\
    d_name d = upd_name updates /\ d_email d = upd_email updates /\
    d_role d = upd_role updates /\ d_updatedAt d = Some (clock w) /\
    (forall pw, upd_password updates = Some pw ->
       if truthy pw then
         exists h, hashPassword pw = inr h /\ d_password d = Some h
       else d_password d = Some pw) /\
    (upd_password updates = None -> d_password d = None) /\
    email_free updates existing (table w) /\
    j = project public_columns (apply_set d existing) /\
    w' = add_log (mkLog info ("User " ++ string_of_Z id ++ " updated successfully")
                        JUndefined)
           (set_table (map (update_row id d) (table w)) w).
Proof.
  unfold Services.updateUser, email_free. run_monad.
  destruct (filter (eq_id id) (table w)) as [|existing rest] eqn:Hf;
    [intros H; inversion H|].
  change (firstn 1 (existing :: rest)) with [existing]. cbn beta iota.
  intros H. exists existing, rest.
  destruct (upd_password updates) as [pw|] eqn:Hpw;
    [destruct (truthy pw) eqn:Htp;
     [destruct (hashPassword pw) as [eh|h] eqn:Hh; [inversion H|]|]|];
  (destruct (upd_email updates) as [em|] eqn:Hem;
   [destruct (truthy em && negb (String.eqb em (u_email existing))) eqn:Hchk;
    [destruct (firstn 1 (filter (eq_email em) (table w))) eqn:Hheld;
     [apply first_of_nonempty in Hheld | inversion H]|]|]);
  cbn beta iota in H; rewrite ?Hf in H; inversion H; subst;
  (eexists;
   (split; [|split; [|split; [|split; [|split; [|split; [|split;
      [|split; [|split]]]]]]]]);
   [ | | | | | | | | reflexivity | reflexivity ];
   first [ reflexivity | password_goal | email_goal
         | (intros Hnone; first [discriminate Hnone | reflexivity]) ]).
Qed.

Lemma service_get_found id w r rest :
  filter (eq_id id) (table w) = r :: rest ->
  Services.getUserById id w = (inr (project public_columns r), w).
Proof.
  intros Hf. unfold Services.getUserById. run_monad. rewrite Hf. reflexivity.
Qed.

Lemma service_get_not_found id w :
  filter (eq_id id) (table w) = [] ->
  Services.getUserById id w =
    (inl (new_Error "User not found"),
     add_log (mkLog error "Error fetching user by id:" (JStr "User not found")) w).
Proof.
  intros Hf. unfold Services.getUserById. run_monad. rewrite Hf. reflexivity.
Qed.

Lemma service_delete_inversion id w j w' :
  Services.deleteUser id w = (inr j, w') ->
  exists existing rest,
    filter (eq_id id) (table w) = existing :: rest /\
    table w' = filter (fun r => negb (eq_id id r)) (table w).
Proof.
  destruct (filter (eq_id id) (table w)) as [|existing rest] eqn:Hf.
  - rewrite (service_delete_not_found id w Hf). discriminate.
  - rewrite (service_delete_found id w existing rest Hf).
    intros H. inversion H. subst. exists existing, rest.
    split; reflexivity.
Qed.

Lemma filter_none_absent id t : filter (eq_id id) t = [] -> absent id t.
Proof.
  intros Hf r Hin Hid.
  assert (Hr : In r (filter (eq_id id) t)).
  { apply filter_In. split; [exact Hin|]. apply Z.eqb_eq. exact Hid. }
  rewrite Hf in Hr. contradiction.
Qed.

Lemma absent_after_delete id t :
  absent id (filter (fun r => negb (eq_id id r)) t).
Proof.
  intros r Hin Hid. apply filter_In in Hin.
  destruct Hin as [_ Hneg]. unfold eq_id in Hneg.
  rewrite (proj2 (Z.eqb_eq _ _) Hid) in Hneg. discriminate.
Qed.

Lemma NoDup_map_injective {A B} (f : A -> B) (l : list A) (x y : A) :
  NoDup (map f l) -> In x l -> In y l -> f x = f y -> x = y.
Proof.
  induction l as [|a l IH]; [contradiction|].
  cbn [map]. intros Hnd Hx Hy Hxy. inversion Hnd as [|? ? Hnotin Hnd']. subst.
  destruct Hx as [Hx|Hx], Hy as [Hy|Hy].
  - congruence.
  - subst a. exfalso. apply Hnotin. rewrite Hxy. apply in_map. exact Hy.
  - subst a. exfalso. apply Hnotin. rewrite <- Hxy. apply in_map. exact Hx.
  - exact (IH Hnd' Hx Hy Hxy).
Qed.

(** Writing a fresh value into the rows of one id keeps a column duplicate
    free, the ids being duplicate free themselves. *)
Lemma NoDup_after_fresh_write id em t :
  NoDup (map u_id t) -> NoDup (map u_email t) ->
  (forall r, In r t -> u_email r <> em) ->
  NoDup (map (fun r => if eq_id id r then em else u_email r) t).
Proof.
  induction t as [|r t IH]; [constructor|].
  cbn [map]. intros Hids Hemails Hfresh.
  inversion Hids as [|? ? Hid_notin Hids']. subst.
  inversion Hemails as [|? ? Hem_notin Hemails']. subst.
  constructor.
  - intros Hin. apply in_map_iff in Hin. destruct Hin as [r' [Heq Hr']].
    unfold eq_id in Heq.
    destruct (Z.eqb_spec (u_id r') id) as [Hr'id|Hr'id];
      destruct (Z.eqb_spec (u_id r) id) as [Hrid|Hrid].
    + apply Hid_notin. rewrite Hrid, <- Hr'id. apply in_map. exact Hr'.
    + apply (Hfresh r); [left; reflexivity | symmetry; exact Heq].
    + apply (Hfresh r'); [right; exact Hr' | exact Heq].
    + apply Hem_notin. rewrite <- Heq. apply in_map. exact Hr'.
  - apply IH; [exact Hids' | exact Hemails' |].
    intros r' Hr'. apply Hfresh. right. exact Hr'.
Qed.

Section UserStore.

Variable hashPassword : string -> Error + string.

(** X1.  What a successful update returns is what a lookup of the same id
    returns right after it: the handed-out projection is the stored row. *)
Theorem update_then_get_round_trip id updates w j w' :
  Services.updateUser hashPassword id updates w = (inr j, w') ->
  Services.getUserById id w' = (inr j, w').
Proof.
  intros Hrun.
  destruct (service_update_inversion hashPassword id updates w j w' Hrun)
    as [existing [rest [d [Hf [_ [_ [_ [_ [_ [_ [_ [Hj Hw]]]]]]]]]]]].
  rewrite Hj.
  apply (service_get_found id w' (apply_set d existing)
           (map (apply_set d) rest)).
  rewrite Hw. cbn [table add_log set_table].
  rewrite filter_updated_rows, Hf. reflexivity.
Qed.

(** X2.  A successful update rewrites the table row by row: a row of
    another id is kept as it is; a row of the target id keeps its id and its
    creation time, takes the supplied name, email and role where supplied,
    and takes the clock as its modification time. *)
Theorem update_writes_supplied_fields_only id updates w j w' :
  Services.updateUser hashPassword id updates w = (inr j, w') ->
  Forall2
    (fun r r' =>
       if eq_id id r then
         u_id r' = u_id r /\ u_createdAt r' = u_createdAt r /\
         u_name r' = pick (upd_name updates) (u_name r) /\
         u_email r' = pick (upd_email updates) (u_email r) /\
         u_role r' = pick (upd_role updates) (u_role r) /\
         u_updatedAt r' = clock w
       else r' = r)
    (table w) (table w').
Proof.
  intros Hrun.
  destruct (service_update_inversion hashPassword id updates w j w' Hrun)
    as [existing [rest [d [_ [Hn [He [Hr [Ht [_ [_ [_ [_ Hw]]]]]]]]]]]].
  rewrite Hw. cbn [table add_log set_table]. clear Hw Hrun.
  induction (table w) as [|r t IH]; [constructor|].
  cbn [map]. constructor; [|exact IH].
  destruct (eq_id id r); [|reflexivity].
  cbn. rewrite Hn, He, Hr, Ht. repeat split; reflexivity.
Qed.

(** X3.  A supplied non-empty password never reaches the table in the
    clear: whatever the update ends in, either the table is the one it began
    with, or the password hashed and every row of the target id holds that
    hash. *)
Theorem password_is_stored_hashed id updates w pw o w' :
  upd_password updates = Some pw -> truthy pw = true ->
  Services.updateUser hashPassword id updates w = (o, w') ->
  match o with
  | inl _ => table w' = table w
  | inr _ =>
      exists h, hashPassword pw = inr h /\
                forall row, In row (table w') -> u_id row = id ->
                            u_password row = h
  end.
Proof.
  intros Hpw Htp Hrun. destruct o as [e|j].
  - rewrite (service_update_failure hashPassword id updates w e w' Hrun).
    reflexivity.
  - destruct (service_update_inversion hashPassword id updates w j w' Hrun)
      as [existing [rest [d [_ [_ [_ [_ [_ [Hhash [_ [_ [_ Hw]]]]]]]]]]]].
    specialize (Hhash pw Hpw). rewrite Htp in Hhash.
    destruct Hhash as [h [Hh Hd]]. exists h. split; [exact Hh|].
    rewrite Hw. cbn [table add_log set_table].
    intros row Hin Hid. apply in_map_iff in Hin. destruct Hin as [r [Hrow _]].
    destruct (eq_id id r) eqn:Hr.
    + subst row. cbn. rewrite Hd. reflexivity.
    + subst row. unfold eq_id in Hr. apply Z.eqb_neq in Hr. contradiction.
Qed.

(** X4.  Updates keep the emails of the table distinct: if ids and emails
    are duplicate free and the update succeeds with no email or a non-empty
    one among the changes, the emails are duplicate free afterwards. *)
Theorem update_keeps_emails_unique id updates w j w' :
  NoDup (map u_id (table w)) ->
  NoDup (map u_email (table w)) ->
  (forall em, upd_email updates = Some em -> truthy em = true) ->
  Services.updateUser hashPassword id updates w = (inr j, w') ->
  NoDup (map u_email (table w')) /\ NoDup (map u_id (table w')).
Proof.
  intros Hids Hemails Htruthy Hrun.
  destruct (service_update_inversion hashPassword id updates w j w' Hrun)
    as [existing [rest [d [Hf [_ [He [_ [_ [_ [_ [Hfree [_ Hw]]]]]]]]]]]].
  rewrite Hw. cbn [table add_log set_table]. rewrite !map_map.
  assert (Hexisting : In existing (table w) /\ u_id existing = id).
  { assert (Hin : In existing (filter (eq_id id) (table w)))
      by (rewrite Hf; left; reflexivity).
    apply filter_In in Hin. destruct Hin as [Hin Hid].
    split; [exact Hin | apply Z.eqb_eq; exact Hid]. }
  destruct Hexisting as [Hin_existing Hid_existing].
  split.
  2:{ rewrite (map_ext _ u_id); [exact Hids|].
      intros r. destruct (eq_id id r); reflexivity. }
  destruct (upd_email updates) as [em|] eqn:Hem.
  - destruct (String.eqb_spec em (u_email existing)) as [Hsame|Hdiff].
    + rewrite (map_ext_in _ u_email); [exact Hemails|].
      intros r Hr. destruct (eq_id id r) eqn:Hrid; [|reflexivity].
      cbn. rewrite He. cbn [pick].
      assert (r = existing).
      { apply (NoDup_map_injective u_id (table w)); try assumption.
        unfold eq_id in Hrid. apply Z.eqb_eq in Hrid. congruence. }
      subst r. exact Hsame.
    + pose proof (Hfree em Hem (Htruthy em eq_refl) Hdiff) as Hnone.
      rewrite (map_ext _ (fun r => if eq_id id r then em else u_email r)).
      * apply (NoDup_after_fresh_write id em (table w) Hids Hemails).
        intros r Hr Hheld.
        assert (Hr' : In r (filter (eq_email em) (table w))).
        { apply filter_In. split; [exact Hr|].
          unfold eq_email. rewrite Hheld. apply String.eqb_refl. }
        rewrite Hnone in Hr'. contradiction.
      * intros r. destruct (eq_id id r); [|reflexivity].
        cbn. rewrite He. reflexivity.
  - rewrite (map_ext _ u_email); [exact Hemails|].
    intros r. destruct (eq_id id r); [|reflexivity].
    cbn. rewrite He. reflexivity.
Qed.

(** X5.  A successful delete removes the rows of the target id and no
    other: the id is absent afterwards, every row of another id is kept, and
    a lookup or a second delete of that id fails "User not found". *)
Theorem delete_removes_the_target_only id w j w' :
  Services.deleteUser id w = (inr j, w') ->
  absent id (table w') /\
  (forall r, u_id r <> id -> (In r (table w') <-> In r (table w))) /\
  fst (Services.getUserById id w') = inl (new_Error "User not found") /\
  fst (Services.deleteUser id w') = inl (new_Error "User not found").
Proof.
  intros Hrun.
  destruct (service_delete_inversion id w j w' Hrun)
    as [existing [rest [_ Htable]]].
  assert (Habs : absent id (table w'))
    by (rewrite Htable; apply absent_after_delete).
  pose proof (absent_filter id (table w') Habs) as Hnone.
  split; [exact Habs|]. split; [|split].
  - intros r Hid. rewrite Htable. rewrite filter_In. unfold eq_id.
    rewrite (proj2 (Z.eqb_neq _ _) Hid). cbn [negb]. tauto.
  - rewrite (service_get_not_found id w' Hnone). reflexivity.
  - rewrite (service_delete_not_found id w' Hnone). reflexivity.
Qed.

End UserStore.

Lemma service_update_hash_rejected hashPassword id updates w existing pw e :
  find (eq_id id) (table w) = Some existing ->
  upd_password updates = Some pw -> truthy pw = true ->
  hashPassword pw = inl e ->
  Services.updateUser hashPassword id updates w =
    (inl e, add_log (mkLog error "Error updating user:" (error_json e)) w).
Proof.
  intros Hfind Hpw Htp Hh. destruct (find_filter _ _ _ Hfind) as [rest Hf].
  unfold Services.updateUser. run_monad. rewrite Hf.
  change (firstn 1 (existing :: rest)) with [existing].
  rewrite Hpw, Htp, Hh. reflexivity.
Qed.

(* ===================================================================== *)
(** ** More on the users controller                                       *)
(* ===================================================================== *)

Section Handlers.

Variable ZodError : Type.
Variable userIdSchema : Json -> ZodError + Z.
Variable updateUserSchema : Json -> ZodError + Updates.
Variable formatValidationError : ZodError -> Json.
Variable hashPassword : string -> Error + string.

Let c_update :=
  Controller.updateUser ZodError userIdSchema updateUserSchema
                        formatValidationError hashPassword.
Let c_delete :=
  Controller.deleteUser ZodError userIdSchema formatValidationError.
Let c_get :=
  Controller.getUserById ZodError userIdSchema formatValidationError.

Let update_steps :=
  controller_update_steps ZodError userIdSchema updateUserSchema
                          formatValidationError hashPassword.
Let delete_steps :=
  controller_delete_steps ZodError userIdSchema formatValidationError.

(** X6.  The lookup handler answers 400 with the formatted error on an id
    that fails validation, 404 on an id that names no row and 200 with the
    public projection of the first row of that id otherwise, and leaves the
    table alone throughout. *)
Theorem lookup_handler_answers req w :
  (forall err, userIdSchema (req_params req) = inl err ->
     c_get req w =
       (inr (Respond 400 (JObj [("error", JStr "Validation failed");
                                ("details", formatValidationError err)])), w)) /\
  (forall id, userIdSchema (req_params req) = inr id -> absent id (table w) ->
     fst (c_get req w) =
       inr (Respond 404 (JObj [("error", JStr "User not found")]))) /\
  (forall id r, userIdSchema (req_params req) = inr id ->
     find (eq_id id) (table w) = Some r ->
     fst (c_get req w) =
       inr (Respond 200 (JObj [("message", JStr "User fetched successfully");
                               ("user", project public_columns r)]))) /\
  table (snd (c_get req w)) = table w.
Proof.
  unfold c_get, Controller.getUserById, Controller.validation_failed.
  split; [|split; [|split]].
  - intros err Hid. run_monad. rewrite Hid. reflexivity.
  - intros id Hid Habs. run_monad. rewrite Hid.
    match goal with
    | |- context [Services.getUserById id ?w1] =>
        rewrite (service_get_not_found id w1 (absent_filter id (table w) Habs))
    end.
    reflexivity.
  - intros id r Hid Hfind. run_monad. rewrite Hid.
    destruct (find_filter _ _ _ Hfind) as [rest Hf].
    match goal with
    | |- context [Services.getUserById id ?w1] =>
        rewrite (service_get_found id w1 r rest Hf)
    end.
    reflexivity.
  - run_monad. destruct (userIdSchema (req_params req)) as [err|id];
      [reflexivity|].
    destruct (filter (eq_id id) (table w)) as [|r rest] eqn:Hf.
    + match goal with
      | |- context [Services.getUserById id ?w1] =>
          rewrite (service_get_not_found id w1 Hf)
      end.
      reflexivity.
    + match goal with
      | |- context [Services.getUserById id ?w1] =>
          rewrite (service_get_found id w1 r rest Hf)
      end.
      reflexivity.
Qed.

(** X7.  A request without an acting identity changes nothing: update and
    delete answer 400 or 401 and the world, table and log included, is the
    one they started in, whatever the id and the body. *)
Theorem unauthenticated_requests_change_nothing req w :
  req_user req = None ->
  (snd (c_update req w) = w /\
   (status_of (c_update req w) = Some 400 \/
    status_of (c_update req w) = Some 401)) /\
  (snd (c_delete req w) = w /\
   (status_of (c_delete req w) = Some 400 \/
    status_of (c_delete req w) = Some 401)).
Proof.
  intros Huser.
  unfold c_update, c_delete, Controller.updateUser, Controller.deleteUser,
         Controller.validation_failed.
  run_monad. rewrite Huser. split.
  - destruct (userIdSchema (req_params req)) as [err|id];
      [split; [reflexivity | left; reflexivity]|].
    destruct (updateUserSchema (req_body req)) as [err|updates];
      [split; [reflexivity | left; reflexivity]|].
    split; [reflexivity | right; reflexivity].
  - destruct (userIdSchema (req_params req)) as [err|id];
      [split; [reflexivity | left; reflexivity]|].
    split; [reflexivity | right; reflexivity].
Qed.

(** X8.  An error of the store that is neither of the two the handler
    knows by message is handed to [next(e)]: when hashing the supplied
    password rejects, the update handler answers nothing itself, passes the
    error on and the table is untouched. *)
Theorem hashing_error_goes_to_next req w id updates user existing pw e :
  userIdSchema (req_params req) = inr id ->
  updateUserSchema (req_body req) = inr updates ->
  req_user req = Some user ->
  user_id user = id \/ user_role user = "admin" ->
  truthy_opt (upd_role updates) = false \/ user_role user = "admin" ->
  find (eq_id id) (table w) = Some existing ->
  upd_password updates = Some pw -> truthy pw = true ->
  hashPassword pw = inl e ->
  e_message e <> "User not found" ->
  e_message e <> "Email already in use" ->
  fst (c_update req w) = inr (Next (Some e)) /\
  table (snd (c_update req w)) = table w.
Proof.
  intros Hid Hbody Huser Hpass Hrole Hfind Hpw Htp Hh Hm1 Hm2.
  unfold c_update.
  rewrite (update_steps req w id updates user Hid Hbody Huser).
  assert (Hgate : negb (user_id user =? id)
                  && negb (String.eqb (user_role user) "admin") = false).
  { destruct Hpass as [Hown|Hadm].
    - rewrite (proj2 (Z.eqb_eq _ _) Hown). reflexivity.
    - rewrite (proj2 (String.eqb_eq _ _) Hadm). apply andb_false_r. }
  assert (Hgate2 : truthy_opt (upd_role updates)
                   && negb (String.eqb (user_role user) "admin") = false).
  { destruct Hrole as [Hnone|Hadm].
    - rewrite Hnone. reflexivity.
    - rewrite (proj2 (String.eqb_eq _ _) Hadm). apply andb_false_r. }
  rewrite Hgate, Hgate2.
  match goal with
  | |- context [Services.updateUser hashPassword id updates ?w1] =>
      rewrite (service_update_hash_rejected hashPassword id updates w1
                 existing pw e Hfind Hpw Htp Hh)
  end.
  unfold update_catch.
  rewrite (proj2 (String.eqb_neq _ _) Hm1), (proj2 (String.eqb_neq _ _) Hm2).
  split; reflexivity.
Qed.

(** X9.  Delete is not repeatable: after the handler has answered 200 the
    same request is answered 404, the id being gone. *)
Theorem second_delete_is_not_found req w body w' :
  c_delete req w = (inr (Respond 200 body), w') ->
  status_of (c_delete req w') = Some 404 /\
  exists id, userIdSchema (req_params req) = inr id /\ absent id (table w').
Proof.
  intros Hrun. unfold c_delete in *.
  destruct (userIdSchema (req_params req)) as [err|id] eqn:Hid.
  { unfold Controller.deleteUser, Controller.validation_failed in Hrun.
    run_monad. rewrite Hid in Hrun. discriminate Hrun. }
  destruct (req_user req) as [user|] eqn:Huser.
  2:{ unfold Controller.deleteUser in Hrun. run_monad.
      rewrite Hid, Huser in Hrun. discriminate Hrun. }
  rewrite (delete_steps req w id user Hid Huser) in Hrun.
  rewrite (delete_steps req w' id user Hid Huser).
  destruct (negb (user_id user =? id)
            && negb (String.eqb (user_role user) "admin"));
    [discriminate Hrun|].
  destruct (Services.deleteUser id _) as [[e|j] w1] eqn:Hsvc in Hrun.
  { unfold delete_catch in Hrun.
    destruct (String.eqb (e_message e) "User not found"); discriminate Hrun. }
  inversion Hrun. subst w1.
  destruct (service_delete_inversion id _ j w' Hsvc)
    as [existing [rest [_ Htable]]].
  assert (Habs : absent id (table w'))
    by (rewrite Htable; apply absent_after_delete).
  match goal with
  | |- context [Services.deleteUser id ?w1] =>
      rewrite (service_delete_not_found id w1 (absent_filter id (table w') Habs))
  end.
  split; [reflexivity|]. exists id. split; [reflexivity | exact Habs].
Qed.

(** X10.  Whoever [requireAdmin] lets through is never answered 403 by the
    update or the delete handler, a role change included; [requireAdmin]
    itself changes nothing. *)
Theorem admin_gate_implies_access req w w0 id updates :
  Auth.requireAdmin req w0 = (inr (Next None), w) ->
  userIdSchema (req_params req) = inr id ->
  updateUserSchema (req_body req) = inr updates ->
  w = w0 /\
  status_of (c_update req w) <> Some 403 /\
  status_of (c_delete req w) <> Some 403.
Proof.
  unfold Auth.requireAdmin. run_monad.
  destruct (req_user req) as [user|] eqn:Huser; [|discriminate].
  destruct (String.eqb (user_role user) "admin") eqn:Hadm; [|discriminate].
  cbn [negb]. intros Hrun Hid Hbody. inversion Hrun. subst w0.
  split; [reflexivity|]. unfold c_update, c_delete.
  rewrite (update_steps req w id updates user Hid Hbody Huser).
  rewrite (delete_steps req w id user Hid Huser).
  rewrite Hadm. cbn [negb]. rewrite !andb_false_r. split.
  - destruct (Services.updateUser _ _ _ _) as [[e|j] w1]; [|discriminate].
    unfold status_of, update_catch. cbn [fst].
    repeat split_branch; discriminate.
  - destruct (Services.deleteUser _ _) as [[e|j] w1]; [|discriminate].
    unfold status_of, delete_catch. cbn [fst].
    repeat split_branch; discriminate.
Qed.

End Handlers.

(* ===================================================================== *)
(** ** More on the rate/abuse gate                                        *)
(* ===================================================================== *)

Lemma toLowerCase_app a b :
  toLowerCase (a ++ b) = (toLowerCase a ++ toLowerCase b)%string.
Proof.
  induction a as [|c a IH]; [reflexivity|].
  cbn [String.append toLowerCase]. rewrite IH. reflexivity.
Qed.

Lemma prefix_app s b : String.prefix s (s ++ b) = true.
Proof.
  induction s as [|c s IH]; [destruct b; reflexivity|].
  cbn [String.append String.prefix].
  destruct (ascii_dec c c) as [_|Hne]; [exact IH | contradiction].
Qed.

Lemma includes_here s b : includes (s ++ b) s = true.
Proof.
  destruct s as [|c s].
  - destruct b; reflexivity.
  - cbn [includes String.append].
    change (String c (s ++ b)) with (String c s ++ b)%string.
    rewrite prefix_app. reflexivity.
Qed.

Lemma includes_app a s b : includes (a ++ s ++ b) s = true.
Proof.
  induction a as [|c a IH].
  - exact (includes_here s b).
  - change (String c a ++ s ++ b)%string with (String c (a ++ s ++ b)).
    cbn [includes]. rewrite IH. apply orb_true_r.
Qed.

Lemma or_default_empty ua : or_default (Some ua) EmptyString = ua.
Proof. destruct ua; reflexivity. Qed.

(** A client string that holds an entry of the allow-list, in whatever
    case, is on the allow-list. *)
Lemma isWhitelisted_substring pre variant post agent :
  In agent whitelistedUserAgents ->
  toLowerCase variant = toLowerCase agent ->
  isWhitelisted (pre ++ variant ++ post) = true.
Proof.
  intros Hin Hcase. unfold isWhitelisted. apply existsb_exists.
  exists agent. split; [exact Hin|].
  rewrite !toLowerCase_app, Hcase. apply includes_app.
Qed.

Lemma production_flag env :
  String.eqb (or_default env "development") "production" = true ->
  env = Some "production".
Proof.
  intros H. apply String.eqb_eq in H. unfold or_default in H.
  destruct env as [s|]; [|discriminate].
  destruct (truthy s); [|discriminate]. rewrite H. reflexivity.
Qed.

Section RateGateMore.

Variable protect : SlidingWindow -> Request -> Error + Decision.

(** X11.  In production a request whose User-Agent holds one of the seven
    allow-listed tool names, in any letter case and anywhere in the string,
    goes straight to the next handler: the decision service is not asked,
    so no ceiling and no bot or shield verdict can stop it. *)
Theorem allow_list_skips_the_decision_service req w pre variant post agent :
  NODE_ENV w = Some "production" ->
  req_user_agent req = Some (pre ++ variant ++ post)%string ->
  In agent whitelistedUserAgents ->
  toLowerCase variant = toLowerCase agent ->
  Gate.securityMiddleware protect req w =
    (inr (Next None),
     add_log (mkLog info "Whitelisted user agent detected, bypassing checks"
                    (JObj [("userAgent", JStr (pre ++ variant ++ post))])) w) /\
  protect_calls (snd (Gate.securityMiddleware protect req w)) = protect_calls w.
Proof.
  intros Henv Hua Hin Hcase.
  assert (Hrun : Gate.securityMiddleware protect req w =
            (inr (Next None),
             add_log (mkLog info
                        "Whitelisted user agent detected, bypassing checks"
                        (JObj [("userAgent", JStr (pre ++ variant ++ post))]))
                     w)).
  { unfold Gate.securityMiddleware. run_monad. rewrite Henv, Hua.
    change (String.eqb (or_default (Some "production") "development")
                       "production") with true.
    cbn [negb]. rewrite or_default_empty.
    rewrite (isWhitelisted_substring pre variant post agent Hin Hcase).
    reflexivity. }
  rewrite Hrun. split; reflexivity.
Qed.


(** X13.  Whenever the decision service resolves, the two variants answer
    with the same status (or both pass the request on) and record the same
    call; a decision that is not denied passes in both whatever its reason
    says, and nothing is logged. *)
Theorem variants_agree_on_decisions req w decision :
  NODE_ENV w = Some "production" -> whitelisted req = false ->
  protect (rule_for req) req = inr decision ->
  status_of (Gate.securityMiddleware protect req w) =
    status_of (UngatedGate.securityMiddleware protect req w) /\
  protect_calls (snd (Gate.securityMiddleware protect req w)) =
    protect_calls (snd (UngatedGate.securityMiddleware protect req w)) /\
  (isDenied decision = false ->
     Gate.securityMiddleware protect req w =
       (inr (Next None), add_call (rule_for req) w) /\
     UngatedGate.securityMiddleware protect req w =
       (inr (Next None), add_call (rule_for req) w)).
Proof.
  intros Henv Hwl Hdec.
  rewrite (gate_production_steps protect req w Henv Hwl), ungated_steps, Hdec.
  destruct (isDenied decision).
  - destruct (isBot (reason decision));
      [split; [reflexivity | split; [reflexivity | discriminate]]|].
    destruct (isShield (reason decision));
      [split; [reflexivity | split; [reflexivity | discriminate]]|].
    destruct (isRateLimit (reason decision));
      split; try reflexivity; split; try reflexivity; discriminate.
  - split; [reflexivity|]. split; [reflexivity|].
    intros _. split; reflexivity.
Qed.

(** X14.  In production, off the allow-list, the gate asks the decision
    service exactly once per request, whatever comes back, and with a rule
    that only the role decides: its ceiling is 5, 10 or 20, an
    unauthenticated request gets the guest rule, and two different
    identities of one role get one and the same rule. *)
Theorem one_call_with_the_rule_of_the_role req w :
  NODE_ENV w = Some "production" -> whitelisted req = false ->
  protect_calls (snd (Gate.securityMiddleware protect req w)) =
    (protect_calls w ++ [rule_for req])%list /\
  (sw_max (rule_for req) = 5 \/ sw_max (rule_for req) = 10 \/
   sw_max (rule_for req) = 20) /\
  (req_user req = None ->
   rule_for req = slidingWindow "LIVE" "1m" 5 "guest-rate-limit") /\
  (forall req2 u1 u2,
     req_user req = Some u1 -> req_user req2 = Some u2 ->
     user_role u1 = user_role u2 -> rule_for req2 = rule_for req).
Proof.
  intros Henv Hwl. split; [|split; [|split]].
  - rewrite (gate_production_steps protect req w Henv Hwl).
    destruct (protect (rule_for req) req) as [e|decision]; [reflexivity|].
    destruct (isDenied decision); [|reflexivity].
    destruct (isBot (reason decision)); [reflexivity|].
    destruct (isShield (reason decision)); [reflexivity|].
    destruct (isRateLimit (reason decision)); reflexivity.
  - unfold rule_for. cbn [sw_max]. rewrite ceiling_by_role.
    destruct (String.eqb (role_of req) "admin"); [right; right; reflexivity|].
    destruct (String.eqb (role_of req) "user"); [right; left; reflexivity|].
    left. reflexivity.
  - intros Huser. unfold rule_for, role_of. rewrite Huser. reflexivity.
  - intros req2 u1 u2 H1 H2 Hrole. unfold rule_for, role_of.
    rewrite H1, H2. cbn [option_map]. rewrite Hrole. reflexivity.
Qed.

(** X15.  The gated variant never throws, never hands an error on and
    never answers anything but 403 or 429: in every deployment mode, for
    every client and whatever the decision service does, it either passes
    the request on with [next()] or answers one of those two, and it leaves
    the user table alone. *)
Theorem gate_outcomes req w :
  exists o w',
    Gate.securityMiddleware protect req w = (inr o, w') /\
    table w' = table w /\
    (o = Next None \/
     (exists message, o = forbidden message) \/
     (exists message, o = too_many_requests message)).
Proof.
  destruct (String.eqb (or_default (NODE_ENV w) "development") "production")
    eqn:Hflag.
  - pose proof (production_flag _ Hflag) as Henv.
    destruct (whitelisted req) eqn:Hwl.
    + eexists. eexists. split; [|split; [|left; reflexivity]].
      * unfold Gate.securityMiddleware. run_monad. rewrite Hflag.
        unfold whitelisted in Hwl. rewrite Hwl. reflexivity.
      * reflexivity.
    + rewrite (gate_production_steps protect req w Henv Hwl).
      destruct (protect (rule_for req) req) as [e|decision].
      { eexists. eexists. split; [reflexivity|].
        split; [reflexivity | left; reflexivity]. }
      destruct (isDenied decision).
      2:{ eexists. eexists. split; [reflexivity|].
          split; [reflexivity | left; reflexivity]. }
      destruct (isBot (reason decision)).
      { eexists. eexists. split; [reflexivity|].
        split; [reflexivity | right; left; eexists; reflexivity]. }
      destruct (isShield (reason decision)).
      { eexists. eexists. split; [reflexivity|].
        split; [reflexivity | right; left; eexists; reflexivity]. }
      destruct (isRateLimit (reason decision)).
      { eexists. eexists. split; [reflexivity|].
        split; [reflexivity | right; right; eexists; reflexivity]. }
      eexists. eexists. split; [reflexivity|].
      split; [reflexivity | left; reflexivity].
  - eexists. eexists. split; [|split; [|left; reflexivity]].
    + unfold Gate.securityMiddleware. run_monad. rewrite Hflag. reflexivity.
    + reflexivity.
Qed.

End RateGateMore.

(* ===================================================================== *)
(** ** The authentication middleware                                      *)
(* ===================================================================== *)

(** What [authenticate] passed on carries the decoded identity. *)
Lemma authenticate_shape jwttoken_verify cookies req w req' w' :
  Auth.authenticate jwttoken_verify cookies req w =
    (inr (Next None, req'), w') ->
  exists decoded, req' = set_user decoded req /\ w' = w.
Proof.
  unfold Auth.authenticate. run_monad.
  repeat split_branch; intros H; inversion H; subst.
  eexists. split; reflexivity.
Qed.

Section Authentication.

Variable jwttoken_verify : string -> Error + Identity.
Variable ZodError : Type.
Variable userIdSchema : Json -> ZodError + Z.
Variable updateUserSchema : Json -> ZodError + Updates.
Variable formatValidationError : ZodError -> Json.
Variable hashPassword : string -> Error + string.

Let c_update :=
  Controller.updateUser ZodError userIdSchema updateUserSchema
                        formatValidationError hashPassword.
Let c_delete :=
  Controller.deleteUser ZodError userIdSchema formatValidationError.

(** X16.  [authenticate] lets a request through only with a verified
    identity: it never throws, and it either passes on the request with
    [req.user] set to what the verifier decoded from a non-empty token
    cookie, everything else as it came and nothing logged, or answers 401
    and leaves the request as it was. *)
Theorem authenticate_admits_only_verified cookies req w r w' :
  Auth.authenticate jwttoken_verify cookies req w = (r, w') ->
  (exists token decoded,
     cookies_token cookies = Some token /\ truthy token = true /\
     jwttoken_verify token = inr decoded /\
     r = inr (Next None, set_user decoded req) /\ w' = w) \/
  (exists body, r = inr (Respond 401 body, req) /\ table w' = table w).
Proof.
  unfold Auth.authenticate. run_monad.
  destruct (cookies_token cookies) as [token|] eqn:Htoken.
  - destruct (truthy token) eqn:Ht; cbn [negb].
    + destruct (jwttoken_verify token) as [e|decoded] eqn:Hv;
        intros H; inversion H; subst.
      * right. eexists. split; reflexivity.
      * left. exists token, decoded. repeat split; assumption.
    + intros H. inversion H. subst. right. eexists. split; reflexivity.
  - intros H. inversion H. subst. right. eexists. split; reflexivity.
Qed.

(** X17.  A request that [authenticate] passed on is never answered 401 by
    the update or the delete handler, and [requireAdmin] lets it through
    exactly when the decoded role is admin. *)
Theorem authenticated_request_is_recognised cookies req w req' w' :
  Auth.authenticate jwttoken_verify cookies req w =
    (inr (Next None, req'), w') ->
  status_of (c_update req' w') <> Some 401 /\
  status_of (c_delete req' w') <> Some 401 /\
  exists decoded,
    req_user req' = Some decoded /\
    (fst (Auth.requireAdmin req' w') = inr (Next None) <->
     user_role decoded = "admin").
Proof.
  intros Hrun.
  destruct (authenticate_shape jwttoken_verify cookies req w req' w' Hrun)
    as [decoded [Hreq' _]].
  assert (Huser : req_user req' = Some decoded) by (rewrite Hreq'; reflexivity).
  split; [|split].
  - destruct (userIdSchema (req_params req')) as [err|id] eqn:Hid.
    { unfold c_update, Controller.updateUser, Controller.validation_failed.
      run_monad. rewrite Hid. discriminate. }
    destruct (updateUserSchema (req_body req')) as [err|updates] eqn:Hbody.
    { unfold c_update, Controller.updateUser, Controller.validation_failed.
      run_monad. rewrite Hid, Hbody. discriminate. }
    unfold c_update.
    rewrite (controller_update_steps ZodError userIdSchema updateUserSchema
               formatValidationError hashPassword req' w' id updates decoded
               Hid Hbody Huser).
    repeat split_branch; try discriminate;
      unfold status_of, update_catch; cbn [fst];
      repeat split_branch; discriminate.
  - destruct (userIdSchema (req_params req')) as [err|id] eqn:Hid.
    { unfold c_delete, Controller.deleteUser, Controller.validation_failed.
      run_monad. rewrite Hid. discriminate. }
    unfold c_delete.
    rewrite (controller_delete_steps ZodError userIdSchema
               formatValidationError req' w' id decoded Hid Huser).
    repeat split_branch; try discriminate;
      unfold status_of, delete_catch; cbn [fst];
      repeat split_branch; discriminate.
  - exists decoded. split; [exact Huser|].
    unfold Auth.requireAdmin. run_monad. rewrite Huser.
    destruct (String.eqb_spec (user_role decoded) "admin") as [Hadm|Hne];
      cbn [negb fst]; split; intros H;
      try reflexivity; try assumption; try discriminate H; contradiction.
Qed.

End Authentication.

(* ===================================================================== *)
(** ** More concrete runs                                                 *)
(* ===================================================================== *)

Lemma production_ids_distinct : NoDup (map u_id (table production)).
Proof.
  repeat constructor; cbn; intros H;
    repeat (destruct H as [H|H]; [discriminate H|]); exact H.
Defined.

Lemma production_emails_distinct : NoDup (map u_email (table production)).
Proof.
  repeat constructor; cbn; intros H;
    repeat (destruct H as [H|H]; [discriminate H|]); exact H.
Defined.

Lemma update_then_get_round_trip_witness :
  exists j w',
    Services.updateUser fixture_hashPassword 1
      (mkUpdates (Some "Alicia") None None None) production = (inr j, w') /\
    Services.getUserById 1 w' = (inr j, w').
Proof.
  eexists. eexists. split.
  - symmetry. vm_compute. reflexivity.
  - refine (update_then_get_round_trip fixture_hashPassword 1
              (mkUpdates (Some "Alicia") None None None) production _ _ _).
    symmetry. vm_compute. reflexivity.
Defined.

Lemma update_writes_supplied_fields_only_witness :
  exists j w',
    Services.updateUser fixture_hashPassword 1
      (mkUpdates (Some "Alicia") None None None) production = (inr j, w') /\
    List.length (table production) = List.length (table w').
Proof.
  eexists. eexists. split.
  - symmetry. vm_compute. reflexivity.
  - eapply Forall2_length.
    refine (update_writes_supplied_fields_only fixture_hashPassword 1
              (mkUpdates (Some "Alicia") None None None) production _ _ _).
    symmetry. vm_compute. reflexivity.
Defined.

Lemma password_is_stored_hashed_witness :
  exists j w',
    Services.updateUser fixture_hashPassword 1
      (mkUpdates None None (Some "newpass123") None) production = (inr j, w') /\
    exists h, fixture_hashPassword "newpass123" = inr h /\
              forall row, In row (table w') -> u_id row = 1 ->
                          u_password row = h.
Proof.
  eexists. eexists. split.
  - symmetry. vm_compute. reflexivity.
  - refine (password_is_stored_hashed fixture_hashPassword 1
              (mkUpdates None None (Some "newpass123") None) production
              "newpass123" (inr _) _ eq_refl eq_refl _).
    symmetry. vm_compute. reflexivity.
Defined.

Lemma update_keeps_emails_unique_witness :
  exists j w',
    Services.updateUser fixture_hashPassword 1
      (mkUpdates None (Some "alice@new.example") None None) production =
      (inr j, w') /\
    NoDup (map u_email (table w')) /\ NoDup (map u_id (table w')).
Proof.
  eexists. eexists. split.
  - symmetry. vm_compute. reflexivity.
  - refine (update_keeps_emails_unique fixture_hashPassword 1
              (mkUpdates None (Some "alice@new.example") None None) production
              _ _ production_ids_distinct production_emails_distinct _ _).
    + intros em Hem. inversion Hem. reflexivity.
    + symmetry. vm_compute. reflexivity.
Defined.

Lemma delete_removes_the_target_only_witness :
  exists j w',
    Services.deleteUser 2 production = (inr j, w') /\
    absent 2 (table w') /\
    fst (Services.getUserById 2 w') = inl (new_Error "User not found").
Proof.
  eexists. eexists. split.
  - symmetry. vm_compute. reflexivity.
  - assert (H := delete_removes_the_target_only 2 production).
    edestruct H as [Habs [_ [Hget _]]].
    + symmetry. vm_compute. reflexivity.
    + split; [exact Habs | exact Hget].
Defined.

Lemma lookup_handler_answers_witness :
  absent 9 (table production) /\
  fst (Controller.getUserById unit fixture_userIdSchema
         fixture_formatValidationError alice_deletes_9 production) =
    inr (Respond 404 (JObj [("error", JStr "User not found")])) /\
  fst (Controller.getUserById unit fixture_userIdSchema
         fixture_formatValidationError alice_deletes_bob production) =
    inr (Respond 200 (JObj [("message", JStr "User fetched successfully");
                            ("user", project public_columns bob)])).
Proof.
  split; [exact nine_is_absent|]. split.
  - destruct (lookup_handler_answers unit fixture_userIdSchema
                fixture_formatValidationError alice_deletes_9 production)
      as [_ [Hmissing _]].
    exact (Hmissing 9 eq_refl nine_is_absent).
  - destruct (lookup_handler_answers unit fixture_userIdSchema
                fixture_formatValidationError alice_deletes_bob production)
      as [_ [_ [Hfound _]]].
    exact (Hfound 2 bob eq_refl eq_refl).
Defined.

Lemma unauthenticated_requests_change_nothing_witness :
  req_user guest_request = None /\
  snd (run_update guest_request production) = production /\
  snd (run_delete guest_request production) = production.
Proof.
  split; [reflexivity|].
  destruct (unauthenticated_requests_change_nothing
              unit fixture_userIdSchema fixture_updateUserSchema
              fixture_formatValidationError fixture_hashPassword
              guest_request production eq_refl) as [[Hupd _] [Hdel _]].
  split; [exact Hupd | exact Hdel].
Defined.

Lemma hashing_error_goes_to_next_witness :
  hash_rejects "newpass123" = inl (mkError "Error hashing" "at hashPassword") /\
  fst (Controller.updateUser unit fixture_userIdSchema fixture_updateUserSchema
         fixture_formatValidationError hash_rejects
         alice_changes_password production) =
    inr (Next (Some (mkError "Error hashing" "at hashPassword"))).
Proof.
  split; [reflexivity|].
  refine (proj1 (hashing_error_goes_to_next
                   unit fixture_userIdSchema fixture_updateUserSchema
                   fixture_formatValidationError hash_rejects
                   alice_changes_password production 1
                   (mkUpdates None None (Some "newpass123") None)
                   (as_user alice) alice "newpass123" _
                   eq_refl eq_refl eq_refl (or_introl eq_refl)
                   (or_introl eq_refl) eq_refl eq_refl eq_refl eq_refl _ _));
    discriminate.
Defined.

Lemma second_delete_is_not_found_witness :
  exists body w',
    run_delete (fixture_request (Some (as_user alice)) 1 (JObj []) "DELETE")
               production = (inr (Respond 200 body), w') /\
    status_of (run_delete
                 (fixture_request (Some (as_user alice)) 1 (JObj []) "DELETE")
                 w') = Some 404.
Proof.
  eexists. eexists. split.
  - symmetry. vm_compute. reflexivity.
  - eapply (fun H => proj1 (second_delete_is_not_found
                              unit fixture_userIdSchema
                              fixture_formatValidationError
                              (fixture_request (Some (as_user alice)) 1
                                               (JObj []) "DELETE")
                              production _ _ H)).
    symmetry. vm_compute. reflexivity.
Defined.

Lemma admin_gate_implies_access_witness :
  Auth.requireAdmin root_promotes_bob production =
    (inr (Next None), production) /\
  status_of (run_update root_promotes_bob production) <> Some 403 /\
  status_of (run_delete root_promotes_bob production) <> Some 403.
Proof.
  split; [reflexivity|].
  exact (proj2 (admin_gate_implies_access
                  unit fixture_userIdSchema fixture_updateUserSchema
                  fixture_formatValidationError fixture_hashPassword
                  root_promotes_bob production production 2
                  (mkUpdates None None None (Some "admin"))
                  eq_refl eq_refl eq_refl)).
Defined.

Lemma allow_list_skips_the_decision_service_witness :
  req_user_agent curl_request = Some ("" ++ "CURL" ++ "/8.4.0")%string /\
  In "curl" whitelistedUserAgents /\
  toLowerCase "CURL" = toLowerCase "curl" /\
  protect_calls (snd (Gate.securityMiddleware
                        (protect_denies bot_and_rate_limited)
                        curl_request production)) = protect_calls production /\
  fst (Gate.securityMiddleware (protect_denies bot_and_rate_limited)
         curl_request production) = inr (Next None).
Proof.
  assert (Hin : In "curl" whitelistedUserAgents)
    by (do 4 right; left; reflexivity).
  split; [reflexivity|]. split; [exact Hin|]. split; [reflexivity|].
  destruct (allow_list_skips_the_decision_service
              (protect_denies bot_and_rate_limited) curl_request production
              EmptyString "CURL" "/8.4.0" "curl" eq_refl eq_refl Hin eq_refl)
    as [Hrun Hcalls].
  split; [exact Hcalls|]. rewrite Hrun. reflexivity.
Defined.


Lemma variants_agree_on_decisions_witness :
  whitelisted guest_request = false /\
  status_of (Gate.securityMiddleware (protect_denies rate_limited)
               guest_request production) =
    status_of (UngatedGate.securityMiddleware (protect_denies rate_limited)
                 guest_request production).
Proof.
  assert (Hwl : whitelisted guest_request = false) by (vm_compute; reflexivity).
  split; [exact Hwl|].
  exact (proj1 (variants_agree_on_decisions (protect_denies rate_limited)
                  guest_request production (mkDecision true rate_limited)
                  eq_refl Hwl eq_refl)).
Defined.

Lemma one_call_with_the_rule_of_the_role_witness :
  whitelisted admin_request = false /\
  protect_calls (snd (Gate.securityMiddleware protect_throws admin_request
                        production)) =
    (protect_calls production ++ [rule_for admin_request])%list.
Proof.
  assert (Hwl : whitelisted admin_request = false) by (vm_compute; reflexivity).
  split; [exact Hwl|].
  exact (proj1 (one_call_with_the_rule_of_the_role protect_throws
                  admin_request production eq_refl Hwl)).
Defined.

Lemma authenticate_admits_only_verified_witness :
  Auth.authenticate fixture_verify (mkCookies (Some "alice-token"))
                    guest_request production =
    (inr (Next None, set_user (as_user alice) guest_request), production) /\
  exists token decoded,
    cookies_token (mkCookies (Some "alice-token")) = Some token /\
    fixture_verify token = inr decoded /\
    set_user (as_user alice) guest_request = set_user decoded guest_request.
Proof.
  assert (Hrun : Auth.authenticate fixture_verify
                   (mkCookies (Some "alice-token")) guest_request production =
                 (inr (Next None, set_user (as_user alice) guest_request),
                  production)) by reflexivity.
  split; [exact Hrun|].
  destruct (authenticate_admits_only_verified fixture_verify _ _ _ _ _ Hrun)
    as [[token [decoded [Htoken [_ [Hverify [Hr _]]]]]] | [body [Hr _]]].
  - exists token, decoded. split; [exact Htoken|]. split; [exact Hverify|].
    inversion Hr. reflexivity.
  - discriminate Hr.
Defined.

Lemma authenticated_request_is_recognised_witness :
  Auth.authenticate fixture_verify (mkCookies (Some "root-token"))
                    alice_deletes_bob production =
    (inr (Next None, set_user (as_user root) alice_deletes_bob), production) /\
  status_of (run_delete (set_user (as_user root) alice_deletes_bob) production)
    <> Some 401.
Proof.
  assert (Hrun : Auth.authenticate fixture_verify
                   (mkCookies (Some "root-token")) alice_deletes_bob production =
                 (inr (Next None, set_user (as_user root) alice_deletes_bob),
                  production)) by reflexivity.
  split; [exact Hrun|].
  exact (proj1 (proj2 (authenticated_request_is_recognised
                         fixture_verify unit fixture_userIdSchema
                         fixture_updateUserSchema fixture_formatValidationError
                         fixture_hashPassword _ _ _ _ _ Hrun))).
Defined.

(* ===================================================================== *)
(** ** Empty strings                                                      *)
(* ===================================================================== *)

Section EmptyFields.

Variable ZodError : Type.
Variable userIdSchema : Json -> ZodError + Z.
Variable updateUserSchema : Json -> ZodError + Updates.
Variable formatValidationError : ZodError -> Json.
Variable hashPassword : string -> Error + string.

(** X18.  An empty password and an empty email among the changes are
    written as they are: the password is not hashed (the hasher is not
    needed at all) and the email is not checked against the other rows, so
    the update succeeds and the rows of the target id end with both columns
    empty, whoever else holds the empty email. *)
Theorem empty_password_and_email_skip_their_checks id updates w existing :
  find (eq_id id) (table w) = Some existing ->
  upd_password updates = Some EmptyString ->
  upd_email updates = Some EmptyString ->
  exists j w',
    Services.updateUser hashPassword id updates w = (inr j, w') /\
    forall row, In row (table w') -> u_id row = id ->
                u_password row = EmptyString /\ u_email row = EmptyString.
Proof.
  intros Hfind Hpw Hem.
  destruct (find_filter _ _ _ Hfind) as [rest Hf].
  assert (Hhash : hash_ok hashPassword updates).
  { intros pw Hpw' Ht. rewrite Hpw in Hpw'. inversion Hpw'. subst pw.
    discriminate Ht. }
  assert (Hfree : email_free updates existing (table w)).
  { intros em Hem' Ht. rewrite Hem in Hem'. inversion Hem'. subst em.
    discriminate Ht. }
  destruct (service_update_success hashPassword id updates w existing rest
              Hf Hhash Hfree) as [d0 [_ [_ [_ [_ Hrun]]]]].
  eexists. eexists. split; [exact Hrun|].
  destruct (service_update_inversion hashPassword id updates w _ _ Hrun)
    as [existing' [rest' [d [_ [_ [He [_ [_ [Hp [_ [_ [_ Hw]]]]]]]]]]]].
  specialize (Hp EmptyString Hpw). cbn [truthy] in Hp.
  rewrite Hw. cbn [table add_log set_table].
  intros row Hin Hid. apply in_map_iff in Hin. destruct Hin as [r [Hrow _]].
  destruct (eq_id id r) eqn:Hr.
  - subst row. cbn. rewrite Hp, He, Hem. split; reflexivity.
  - subst row. unfold eq_id in Hr. apply Z.eqb_neq in Hr. contradiction.
Qed.

(** X19.  The role check of the update handler looks at the truthiness of
    the role: an owner who is no admin and sends the empty string as role
    is not turned away; the update is answered 200 and the rows of the
    target id end with an empty role. *)
Theorem empty_role_passes_the_role_check req w id updates user existing :
  userIdSchema (req_params req) = inr id ->
  updateUserSchema (req_body req) = inr updates ->
  req_user req = Some user ->
  user_id user = id -> user_role user <> "admin" ->
  upd_role updates = Some EmptyString ->
  find (eq_id id) (table w) = Some existing ->
  hash_ok hashPassword updates ->
  email_free updates existing (table w) ->
  exists body w',
    Controller.updateUser ZodError userIdSchema updateUserSchema
      formatValidationError hashPassword req w =
      (inr (Respond 200 body), w') /\
    forall row, In row (table w') -> u_id row = id -> u_role row = EmptyString.
Proof.
  intros Hid Hbody Huser Hown Hadm Hrole Hfind Hhash Hfree.
  rewrite (controller_update_steps ZodError userIdSchema updateUserSchema
             formatValidationError hashPassword req w id updates user
             Hid Hbody Huser).
  rewrite (proj2 (Z.eqb_eq _ _) Hown), Hrole. cbn [negb andb truthy_opt truthy].
  destruct (find_filter _ _ _ Hfind) as [rest Hf].
  destruct (service_update_success hashPassword id updates
              (add_log (mkLog info ("Updating user " ++ string_of_Z id)
                              JUndefined) w)
              existing rest Hf Hhash Hfree)
    as [d [_ [_ [Hd [_ Hrun]]]]].
  rewrite Hrun. eexists. eexists. split; [reflexivity|].
  cbn [table add_log set_table]. rewrite Hrole in Hd.
  intros row Hin Hrow. exact (updated_rows_role id d _ _ row Hd Hin Hrow).
Qed.

End EmptyFields.

Lemma empty_password_and_email_skip_their_checks_witness :
  find (eq_id 1) (table production) = Some alice /\
  exists j w',
    Services.updateUser hash_rejects 1
      (mkUpdates None (Some EmptyString) (Some EmptyString) None) production =
      (inr j, w') /\
    forall row, In row (table w') -> u_id row = 1 ->
                u_password row = EmptyString /\ u_email row = EmptyString.
Proof.
  split; [reflexivity|].
  exact (empty_password_and_email_skip_their_checks hash_rejects 1
           (mkUpdates None (Some EmptyString) (Some EmptyString) None)
           production alice eq_refl eq_refl eq_refl).
Defined.

Lemma empty_role_passes_the_role_check_witness :
  user_role (as_user alice) <> "admin" /\
  exists body w',
    run_update (fixture_request (Some (as_user alice)) 1
                  (JObj [("role", JStr EmptyString)]) "PUT") production =
      (inr (Respond 200 body), w') /\
    forall row, In row (table w') -> u_id row = 1 -> u_role row = EmptyString.
Proof.
  assert (Hadm : user_role (as_user alice) <> "admin") by discriminate.
  split; [exact Hadm|].
  refine (empty_role_passes_the_role_check
            unit fixture_userIdSchema fixture_updateUserSchema
            fixture_formatValidationError fixture_hashPassword
            (fixture_request (Some (as_user alice)) 1
               (JObj [("role", JStr EmptyString)]) "PUT")
            production 1 (mkUpdates None None None (Some EmptyString))
            (as_user alice) alice eq_refl eq_refl eq_refl eq_refl Hadm
            eq_refl eq_refl (fixture_hash_ok _) _).
  intros em Hem. discriminate Hem.
Defined.

(* ===================================================================== *)
(** ** Denials of the library's decision service                          *)
(* ===================================================================== *)

Section LibraryDecisions.

Variable protect : SlidingWindow -> Request -> Error + Decision.

(** Every denial the library hands over takes the first branch. *)
Lemma arcjet_denial_takes_the_bot_branch req w k :
  protect (rule_for req) req = inr (arcjet_decision true k) ->
  UngatedGate.securityMiddleware protect req w =
    (inr (forbidden "Automated requests are not allowed"),
     add_log (mkLog warn "Bot request blocked"
                (JObj [("ip", JStr (req_ip req));
                       ("userAgent", opt_json (req_user_agent req));
                       ("path", JStr (req_path req))]))
             (add_call (rule_for req) w)) /\
  (NODE_ENV w = Some "production" -> whitelisted req = false ->
   Gate.securityMiddleware protect req w =
     (inr (forbidden "Automated requests are not allowed"),
      add_log (mkLog warn "Bot request blocked"
                 (JObj [("ip", JStr (req_ip req));
                        ("userAgent", opt_json (req_user_agent req));
                        ("path", JStr (req_path req));
                        ("method", JStr (req_method req))]))
              (add_call (rule_for req) w))).
Proof.
  intros Hdec. split.
  - rewrite ungated_steps, Hdec. reflexivity.
  - intros Henv Hwl.
    rewrite (gate_production_steps protect req w Henv Hwl), Hdec. reflexivity.
Qed.

(** C7, where the code departs from it.  The rule goes out with the ceiling
    of the role (20 for admin, 10 for user, 5 for guest and for any other
    role), but a request denied for exceeding it is not answered 429: the
    read of [reason.isBot] is truthy on the rate-limit reason too, so both
    variants answer 403 "Automated requests are not allowed" and log a bot,
    and the 429 branch with its message is never reached. *)
Theorem rate_limit_denial_is_answered_403 req w :
  protect (rule_for req) req = inr (arcjet_decision true RateLimitReason) ->
  sw_max (rule_for req) =
    (if String.eqb (role_of req) "admin" then 20
     else if String.eqb (role_of req) "user" then 10 else 5) /\
  fst (UngatedGate.securityMiddleware protect req w) =
    inr (forbidden "Automated requests are not allowed") /\
  status_of (UngatedGate.securityMiddleware protect req w) <> Some 429 /\
  (NODE_ENV w = Some "production" -> whitelisted req = false ->
   fst (Gate.securityMiddleware protect req w) =
     inr (forbidden "Automated requests are not allowed") /\
   status_of (Gate.securityMiddleware protect req w) <> Some 429).
Proof.
  intros Hdec.
  destruct (arcjet_denial_takes_the_bot_branch req w RateLimitReason Hdec)
    as [Hungated Hgated].
  split; [apply ceiling_by_role|].
  rewrite Hungated. split; [reflexivity|]. split; [discriminate|].
  intros Henv Hwl. rewrite (Hgated Henv Hwl).
  split; [reflexivity | discriminate].
Qed.


End LibraryDecisions.

Lemma rate_limit_denial_is_answered_403_witness :
  arcjet_denies RateLimitReason (rule_for admin_request) admin_request =
    inr (arcjet_decision true RateLimitReason) /\
  sw_max (rule_for admin_request) = 20 /\
  fst (UngatedGate.securityMiddleware (arcjet_denies RateLimitReason)
         admin_request production) =
    inr (forbidden "Automated requests are not allowed") /\
  fst (Gate.securityMiddleware (arcjet_denies RateLimitReason)
         admin_request production) =
    inr (forbidden "Automated requests are not allowed").
Proof.
  split; [reflexivity|].
  destruct (rate_limit_denial_is_answered_403 (arcjet_denies RateLimitReason)
              admin_request production eq_refl)
    as [Hmax [Hungated [_ Hgated]]].
  split; [exact Hmax|]. split; [exact Hungated|].
  refine (proj1 (Hgated eq_refl _)). vm_compute. reflexivity.
Defined.

